(** * Rate Limit Filter pipeline: a shallow embedding and its properties

    Source: [examples/filters/rate_limit_filter_pipeline.py], class
    [Pipeline].  The filter keeps, for every user id, the list of the
    instants at which a request was let through ([self.user_requests]) and
    refuses a request by raising an exception.

    Conventions of the embedding.
    - Instants ([time.time()]) are whole seconds, in [Z].  [inlet] is the
      call under a clock that stands still while the call runs, as the
      [now] of the specification; [inlet_reads] gives every
      [time.time()] of the call its own reading.
    - [datetime.now().weekday()] is an input next to the instant
      (Monday is 0, Sunday is 6): the local calendar is the host's.
    - A user record is a dictionary from field names to values that are
      [None] or a string, the shape in which Open WebUI hands it over.
    - Characters are the code points below 256.
    - [print] calls are left out: they change neither the result nor
      [self.user_requests]. *)

From Stdlib Require Import ZArith Ascii String List Bool Lia.
From stdpp Require Import base option list gmap strings fin_maps.

Local Open Scope string_scope.
Local Open Scope Z_scope.

(** ** Python values, exceptions and results *)

Inductive pyval : Type :=
  | PNone
  | PStr (s : string).

#[global] Instance pyval_eq_dec : EqDecision pyval.
Proof. solve_decision. Defined.

Definition pyval_to_option (x : pyval) : option string :=
  match x with PNone => None | PStr s => Some s end.

Definition pyval_of_option (o : option string) : pyval :=
  match o with None => PNone | Some s => PStr s end.

#[global] Program Instance pyval_countable : Countable pyval :=
  inj_countable' pyval_to_option pyval_of_option _.
Next Obligation. by intros []. Qed.

(** The exceptions that can leave [inlet]: the rejection signal
    ([raise Exception("Rate limit exceeded. ...")]), and the two the
    interpreter raises on [None * 60] and on [None.get]. *)
Inductive exn : Type :=
  | RateLimitExceeded
  | TypeError
  | AttributeError.

Inductive result (A : Type) : Type :=
  | Ok (a : A)
  | Raise (e : exn).
Arguments Ok {A} a.
Arguments Raise {A} e.

(** A user record, and the history [self.user_requests]. *)
Abbreviation dict := (gmap string pyval).
Abbreviation store := (gmap pyval (list Z)).

(** Computations over [self.user_requests] that may raise.  What was
    written before a raise stays written. *)
Definition M (A : Type) : Type := store -> result A * store.

Definition ret {A} (a : A) : M A := fun st => (Ok a, st).
Definition raise {A} (e : exn) : M A := fun st => (Raise e, st).
Definition bind {A B} (m : M A) (k : A -> M B) : M B :=
  fun st =>
    match m st with
    | (Ok a, st') => k a st'
    | (Raise e, st') => (Raise e, st')
    end.

Notation "x <- m ;; k" := (bind m (fun x => k))
  (at level 100, m at next level, right associativity).
Notation "m ;;; k" := (bind m (fun _ => k))
  (at level 100, right associativity).

(** ** Strings: [str.strip] and [str.lower] *)

(** [str.isspace] on one character. *)
Definition is_space (c : ascii) : bool :=
  let n := nat_of_ascii c in
  ((9 <=? n) && (n <=? 13) || (28 <=? n) && (n <=? 32)
   || (n =? 133) || (n =? 160))%nat.

Definition lower_char (c : ascii) : ascii :=
  let n := nat_of_ascii c in
  if ((65 <=? n) && (n <=? 90)
      || (192 <=? n) && (n <=? 222) && negb (n =? 215))%nat
  then ascii_of_nat (n + 32) else c.

Fixpoint lower (s : string) : string :=
  match s with
  | EmptyString => EmptyString
  | String c s' => String (lower_char c) (lower s')
  end.

Fixpoint lstrip (s : string) : string :=
  match s with
  | EmptyString => EmptyString
  | String c s' => if is_space c then lstrip s' else s
  end.

Fixpoint rstrip (s : string) : string :=
  match s with
  | EmptyString => EmptyString
  | String c s' =>
      match rstrip s' with
      | EmptyString => if is_space c then EmptyString else String c EmptyString
      | r => String c r
      end
  end.

Definition strip (s : string) : string := rstrip (lstrip s).

(** [x in l] on a list of strings. *)
Definition str_in (x : string) (l : list string) : bool :=
  existsb (String.eqb x) l.

(** ** The valves and the clock *)

(** [Pipeline.Valves]; [pipelines] and [priority] play no part in the
    filter's decision. *)
Record Valves : Type := {
  requests_per_minute : option Z;
  requests_per_hour : option Z;
  sliding_window_limit : option Z;
  sliding_window_minutes : option Z;
  exempt_usernames : list string;
  exempt_emails : list string;
  exempt_user_ids : list string;
  weekdays_only : bool
}.

Record Clock : Type := {
  time : Z;        (* time.time() *)
  weekday : Z      (* datetime.now().weekday() *)
}.

(** [x is not None]. *)
Definition not_None {A} (o : option A) : bool :=
  match o with Some _ => true | None => false end.

(** ** The methods of [Pipeline] *)

Section Pipeline.

Variable v : Valves.

(** The condition of the comprehension in [prune_requests], with the
    short circuit of [and] and [or]; [None * 60] raises. *)
Definition keeps (now req : Z) : result bool :=
  if not_None (requests_per_minute v) && (now - req <? 60) then Ok true
  else if not_None (requests_per_hour v) && (now - req <? 3600) then Ok true
  else
    match sliding_window_limit v with
    | None => Ok false
    | Some _ =>
        match sliding_window_minutes v with
        | None => Raise TypeError
        | Some m => Ok (now - req <? m * 60)
        end
    end.

(** The list comprehension: elements are tested from left to right. *)
Fixpoint prune_list (now : Z) (l : list Z) : result (list Z) :=
  match l with
  | [] => Ok []
  | req :: l' =>
      match keeps now req with
      | Raise e => Raise e
      | Ok b =>
          match prune_list now l' with
          | Raise e => Raise e
          | Ok r => Ok (if b then req :: r else r)
          end
      end
  end.

Definition prune_requests (user_id : pyval) (now : Z) : M unit :=
  fun st =>
    match st !! user_id with
    | None => (Ok tt, st)
    | Some l =>
        match prune_list now l with
        | Ok l' => (Ok tt, <[user_id := l']> st)
        | Raise e => (Raise e, st)
        end
    end.

Definition log_request (user_id : pyval) (now : Z) : M unit :=
  fun st =>
    let st' := match st !! user_id with
               | None => <[user_id := []]> st
               | Some _ => st
               end in
    (Ok tt, <[user_id := (default [] (st' !! user_id) ++ [now])%list]> st').

(** [sum(1 for req in user_reqs if time.time() - req < w)]. *)
Definition count_within (w now : Z) (l : list Z) : Z :=
  Z.of_nat (length (List.filter (fun req => now - req <? w) l)).

(** The three tests of [rate_limited] on the pruned list. *)
Definition over_limit (now : Z) (user_reqs : list Z) : bool :=
  if match requests_per_minute v with
     | Some n => n <=? count_within 60 now user_reqs
     | None => false
     end then true
  else if match requests_per_hour v with
          | Some n => n <=? count_within 3600 now user_reqs
          | None => false
          end then true
  else match sliding_window_limit v with
       | Some n => n <=? Z.of_nat (length user_reqs)
       | None => false
       end.

(** [rate_limited] under a clock that stands still at [now];
    [rate_limited_reads] below gives each sum its own readings. *)
Definition rate_limited (user_id : pyval) (now : Z) : M bool :=
  prune_requests user_id now ;;;
  fun st => (Ok (over_limit now (default [] (st !! user_id))), st).

Definition is_weekday (clk : Clock) : bool := weekday clk <? 5.

(** [(user.get(k) or "")]. *)
Definition get_or_empty (u : dict) (k : string) : string :=
  match u !! k with
  | Some (PStr s) => s
  | _ => ""
  end.

Definition is_empty_list (l : list string) : bool :=
  match l with [] => true | _ => false end.

Definition is_empty_dict (u : dict) : bool := bool_decide (u = ∅).

Definition is_exempt (user : option dict) : bool :=
  match user with
  | None => false
  | Some u =>
      if is_empty_dict u then false
      else if negb (is_empty_list (exempt_usernames v))
              && str_in (lower (strip (get_or_empty u "username")))
                        (exempt_usernames v) then true
      else if negb (is_empty_list (exempt_emails v))
              && str_in (lower (strip (get_or_empty u "email")))
                        (exempt_emails v) then true
      else if negb (is_empty_list (exempt_user_ids v)) then
        match u !! "id" with
        | Some (PStr uid) => str_in (strip uid) (exempt_user_ids v)
        | _ => false
        end
      else false
  end.

(** [user["id"] if user and "id" in user else "default_user"]. *)
Definition user_id_of (u : dict) : pyval :=
  if negb (is_empty_dict u) then
    match u !! "id" with
    | Some x => x
    | None => PStr "default_user"
    end
  else PStr "default_user".

(** [user.get("role", "admin") == "user"]. *)
Definition role_is_user (u : dict) : bool :=
  bool_decide (default (PStr "admin") (u !! "role") = PStr "user").

(** [inlet] under a clock that stands still at [time clk];
    [inlet_reads] below gives [log_request] and the sums their own
    readings. *)
Definition inlet {Body : Type} (body : Body) (user : option dict)
    (clk : Clock) : M Body :=
  match user with
  | None => raise AttributeError
  | Some u =>
      if role_is_user u then
        let user_id := user_id_of u in
        if negb (is_exempt user) then
          if negb (weekdays_only v) || is_weekday clk then
            limited <- rate_limited user_id (time clk) ;;
            if limited then raise RateLimitExceeded
            else log_request user_id (time clk) ;;; ret body
          else ret body
        else ret body
      else ret body
  end.

End Pipeline.

Arguments inlet v {Body} body user clk _.

(** [self.user_requests.get(k, [])]. *)
Definition history (st : store) (k : pyval) : list Z := default [] (st !! k).

(** ** Notions of the specification *)

(** A request of instant [req] lies, at [now], inside the window of a rule
    that is active: the per-minute and the per-hour rule are active when
    their limit is set, the sliding-window rule when its limit and its
    length are both set. *)
Definition in_active_window (v : Valves) (now req : Z) : bool :=
  not_None (requests_per_minute v) && (now - req <? 60)
  || not_None (requests_per_hour v) && (now - req <? 3600)
  || match sliding_window_limit v, sliding_window_minutes v with
     | Some _, Some m => now - req <? m * 60
     | _, _ => false
     end.

(** The windows, in seconds, of the active rules. *)
Definition active_windows (v : Valves) : list Z :=
  ((if not_None (requests_per_minute v) then [60] else [])
   ++ (if not_None (requests_per_hour v) then [3600] else [])
   ++ match sliding_window_limit v, sliding_window_minutes v with
      | Some _, Some m => [m * 60]
      | _, _ => []
      end)%list.

(** The longest of them, when there is one. *)
Definition max_lookback (v : Valves) : option Z :=
  match active_windows v with
  | [] => None
  | w :: ws => Some (fold_right Z.max w ws)
  end.

(** The sliding-window pair is not half-set the way that makes
    [sliding_window_minutes * 60] undefined. *)
Definition window_length_known (v : Valves) : Prop :=
  sliding_window_limit v = None \/ sliding_window_minutes v <> None.

(** Enforcement applies at [clk]. *)
Definition applies_today (v : Valves) (clk : Clock) : bool :=
  negb (weekdays_only v) || is_weekday clk.

(** Exemption in the words of the specification: the username, lower-cased
    and trimmed, is among the exempt usernames, or the email likewise, or
    the id, as a string, is among the exempt ids. *)
Definition field_matches (u : dict) (k : string) (norm : string -> string)
    (l : list string) : bool :=
  match u !! k with
  | Some (PStr s) => str_in (norm s) l
  | _ => false
  end.

Definition exempt_as_stated (v : Valves) (u : dict) : bool :=
  field_matches u "username" (fun s => strip (lower s)) (exempt_usernames v)
  || field_matches u "email" (fun s => strip (lower s)) (exempt_emails v)
  || field_matches u "id" (fun s => s) (exempt_user_ids v).

(** The same with the id trimmed as well. *)
Definition exempt_trimmed_id (v : Valves) (u : dict) : bool :=
  field_matches u "username" (fun s => strip (lower s)) (exempt_usernames v)
  || field_matches u "email" (fun s => strip (lower s)) (exempt_emails v)
  || field_matches u "id" strip (exempt_user_ids v).

(** ** Concrete valves, users and histories *)

Definition no_limits : Valves :=
  {| requests_per_minute := None; requests_per_hour := None;
     sliding_window_limit := None; sliding_window_minutes := None;
     exempt_usernames := []; exempt_emails := []; exempt_user_ids := [];
     weekdays_only := false |}.

Definition with_minute (n : Z) (v : Valves) : Valves :=
  {| requests_per_minute := Some n;
     requests_per_hour := requests_per_hour v;
     sliding_window_limit := sliding_window_limit v;
     sliding_window_minutes := sliding_window_minutes v;
     exempt_usernames := exempt_usernames v;
     exempt_emails := exempt_emails v;
     exempt_user_ids := exempt_user_ids v;
     weekdays_only := weekdays_only v |}.

Definition with_hour (n : Z) (v : Valves) : Valves :=
  {| requests_per_minute := requests_per_minute v;
     requests_per_hour := Some n;
     sliding_window_limit := sliding_window_limit v;
     sliding_window_minutes := sliding_window_minutes v;
     exempt_usernames := exempt_usernames v;
     exempt_emails := exempt_emails v;
     exempt_user_ids := exempt_user_ids v;
     weekdays_only := weekdays_only v |}.

Definition with_sliding (limit minutes : option Z) (v : Valves) : Valves :=
  {| requests_per_minute := requests_per_minute v;
     requests_per_hour := requests_per_hour v;
     sliding_window_limit := limit;
     sliding_window_minutes := minutes;
     exempt_usernames := exempt_usernames v;
     exempt_emails := exempt_emails v;
     exempt_user_ids := exempt_user_ids v;
     weekdays_only := weekdays_only v |}.

Definition with_exempt (names ids : list string) (v : Valves) : Valves :=
  {| requests_per_minute := requests_per_minute v;
     requests_per_hour := requests_per_hour v;
     sliding_window_limit := sliding_window_limit v;
     sliding_window_minutes := sliding_window_minutes v;
     exempt_usernames := names;
     exempt_emails := exempt_emails v;
     exempt_user_ids := ids;
     weekdays_only := weekdays_only v |}.

Definition with_weekdays_only (b : bool) (v : Valves) : Valves :=
  {| requests_per_minute := requests_per_minute v;
     requests_per_hour := requests_per_hour v;
     sliding_window_limit := sliding_window_limit v;
     sliding_window_minutes := sliding_window_minutes v;
     exempt_usernames := exempt_usernames v;
     exempt_emails := exempt_emails v;
     exempt_user_ids := exempt_user_ids v;
     weekdays_only := b |}.

(** [{"id": id, "role": "user"}] and variants. *)
Definition plain_user (id : string) : dict :=
  <["id" := PStr id]> (<["role" := PStr "user"]> ∅).

Definition named_user (id name : string) : dict :=
  <["username" := PStr name]> (plain_user id).

Definition admin_user (id : string) : dict :=
  <["id" := PStr id]> (<["role" := PStr "admin"]> ∅).

Definition roleless_user (id : string) : dict := <["id" := PStr id]> ∅.

(** A Monday and a Saturday at instant [t]. *)
Definition monday (t : Z) : Clock := {| time := t; weekday := 0 |}.
Definition saturday (t : Z) : Clock := {| time := t; weekday := 5 |}.

(** [self.user_requests] holding the history [l] of one user. *)
Definition one_history (id : string) (l : list Z) : store :=
  <[PStr id := l]> ∅.

(** Successive calls of [inlet] by one user at the given clocks: the
    outcomes in order, and the final history. *)
Fixpoint calls (v : Valves) (u : dict) (clks : list Clock) (st : store)
    : list (result unit) * store :=
  match clks with
  | [] => ([], st)
  | clk :: rest =>
      let '(r, st') := inlet v tt (Some u) clk st in
      let '(rs, st'') := calls v u rest st' in
      (r :: rs, st'')
  end.

(** Successive calls of [inlet] by any users, each with its record (or
    none) and its clock: the outcomes in order, and the final history. *)
Fixpoint serve (v : Valves) (reqs : list (option dict * Clock)) (st : store)
    : list (result unit) * store :=
  match reqs with
  | [] => ([], st)
  | (user, clk) :: rest =>
      let '(r, st') := inlet v tt user clk st in
      let '(rs, st'') := serve v rest st' in
      (r :: rs, st'')
  end.

(** The instants of a sequence of calls. *)
Definition instants (reqs : list (option dict * Clock)) : list Z :=
  map (fun r => time (snd r)) reqs.

(** The first two disjuncts of the comprehension of [prune_requests]: the
    entry is kept by the per-minute or by the per-hour rule. *)
Definition kept_by_fixed_windows (v : Valves) (now req : Z) : bool :=
  not_None (requests_per_minute v) && (now - req <? 60)
  || not_None (requests_per_hour v) && (now - req <? 3600).

(** ** Construction: [Pipeline.__init__] *)

(** [s.split(",")]. *)
Fixpoint split_comma (s : string) : list string :=
  match s with
  | EmptyString => [EmptyString]
  | String c s' =>
      if Ascii.eqb c "," then EmptyString :: split_comma s'
      else match split_comma s' with
           | h :: t => String c h :: t
           | [] => [String c EmptyString]
           end
  end.

(** A string is true when it is not empty. *)
Definition nonempty (s : string) : bool :=
  match s with EmptyString => false | _ => true end.

(** [[f(x.strip()) for x in s.split(",") if x.strip()]]. *)
Definition stripped_entries (f : string -> string) (s : string)
    : list string :=
  map (fun x => f (strip x))
      (List.filter (fun x => nonempty (strip x)) (split_comma s)).

(** The attributes that [__init__] sets. *)
Record PipelineObj : Type := {
  self_type : string;
  self_name : string;
  self_pipelines : list string;     (* self.valves.pipelines *)
  self_valves : Valves;
  self_user_requests : store
}.

Section Init.

(** [int] of Python on a string; [None] stands for its [ValueError]. *)
Variable py_int : string -> option Z.

(** The process environment, [os.environ]. *)
Variable env : gmap string string.

(** [os.getenv(k, d)] with a string default. *)
Definition getenv (k d : string) : string := default d (env !! k).

(** [int(os.getenv(k, d))] with an integer default. *)
Definition getenv_int (k : string) (d : Z) : option Z :=
  match env !! k with
  | Some s => py_int s
  | None => Some d
  end.

Definition init : option PipelineObj :=
  let pipelines := split_comma (getenv "RATE_LIMIT_PIPELINES" "*") in
  match getenv_int "RATE_LIMIT_REQUESTS_PER_MINUTE" 10 with
  | None => None
  | Some rpm =>
  match getenv_int "RATE_LIMIT_REQUESTS_PER_HOUR" 1000 with
  | None => None
  | Some rph =>
  match getenv_int "RATE_LIMIT_SLIDING_WINDOW_LIMIT" 100 with
  | None => None
  | Some swl =>
  match getenv_int "RATE_LIMIT_SLIDING_WINDOW_MINUTES" 15 with
  | None => None
  | Some swm =>
      Some {| self_type := "filter";
              self_name := "Rate Limit Filter";
              self_pipelines := pipelines;
              self_valves :=
                {| requests_per_minute := Some rpm;
                   requests_per_hour := Some rph;
                   sliding_window_limit := Some swl;
                   sliding_window_minutes := Some swm;
                   exempt_usernames :=
                     stripped_entries lower
                       (getenv "RATE_LIMIT_EXEMPT_USERNAMES" "");
                   exempt_emails :=
                     stripped_entries lower
                       (getenv "RATE_LIMIT_EXEMPT_EMAILS" "");
                   exempt_user_ids :=
                     stripped_entries (fun x => x)
                       (getenv "RATE_LIMIT_EXEMPT_USER_IDS" "");
                   weekdays_only :=
                     str_in (lower (getenv "RATE_LIMIT_WEEKDAYS_ONLY" "true"))
                            ["true"; "1"; "yes"] |};
              self_user_requests := ∅ |}
  end end end end.

End Init.

(** An entry of an exempt list in the form [__init__] gives it. *)
Definition trimmed (s : string) : Prop := s <> "" /\ strip s = s.
Definition trimmed_lower (s : string) : Prop := trimmed s /\ lower s = s.

(** ** The clock read more than once *)

(** [inlet] above takes one instant for the whole call: it is the call
    as it goes when the clock stands still while it runs.  The source reads
    [time.time()] again at every use: once in [prune_requests] (that
    reading is [time clk]), once for every entry in each of the two
    counting generators of [rate_limited], and once in [log_request].
    [Reads] holds the readings that follow the first; the definitions
    below take each instant from the reading of its own place. *)
Record Reads : Type := {
  at_minute : nat -> Z;  (* the reading for the i-th entry, per-minute sum *)
  at_hour : nat -> Z;    (* the reading for the i-th entry, per-hour sum *)
  at_log : Z             (* the reading of log_request *)
}.

(** The readings of a clock that stands still at [t]. *)
Definition still (t : Z) : Reads :=
  {| at_minute := fun _ => t; at_hour := fun _ => t; at_log := t |}.

(** [sum(1 for req in user_reqs if time.time() - req < w)], the entry of
    index [i] being tested against the reading [reads i]. *)
Fixpoint count_reads (w : Z) (reads : nat -> Z) (i : nat) (l : list Z) : Z :=
  match l with
  | [] => 0
  | req :: l' =>
      (if reads i - req <? w then 1 else 0) + count_reads w reads (S i) l'
  end.

(** The three tests of [rate_limited], each sum with its own readings. *)
Definition over_limit_reads (v : Valves) (rd : Reads) (user_reqs : list Z)
    : bool :=
  if match requests_per_minute v with
     | Some n => n <=? count_reads 60 (at_minute rd) 0 user_reqs
     | None => false
     end then true
  else if match requests_per_hour v with
          | Some n => n <=? count_reads 3600 (at_hour rd) 0 user_reqs
          | None => false
          end then true
  else match sliding_window_limit v with
       | Some n => n <=? Z.of_nat (length user_reqs)
       | None => false
       end.

Definition rate_limited_reads (v : Valves) (user_id : pyval) (now : Z)
    (rd : Reads) : M bool :=
  prune_requests v user_id now ;;;
  fun st => (Ok (over_limit_reads v rd (default [] (st !! user_id))), st).

Definition inlet_reads (v : Valves) {Body : Type} (body : Body)
    (user : option dict) (clk : Clock) (rd : Reads) : M Body :=
  match user with
  | None => raise AttributeError
  | Some u =>
      if role_is_user u then
        let user_id := user_id_of u in
        if negb (is_exempt v user) then
          if negb (weekdays_only v) || is_weekday clk then
            limited <- rate_limited_reads v user_id (time clk) rd ;;
            if limited then raise RateLimitExceeded
            else log_request user_id (at_log rd) ;;; ret body
          else ret body
        else ret body
      else ret body
  end.

(** Successive calls by one user, each with its readings. *)
Fixpoint calls_reads (v : Valves) (u : dict) (clks : list (Clock * Reads))
    (st : store) : list (result unit) * store :=
  match clks with
  | [] => ([], st)
  | (clk, rd) :: rest =>
      let '(r, st') := inlet_reads v tt (Some u) clk rd st in
      let '(rs, st'') := calls_reads v u rest st' in
      (r :: rs, st'')
  end.

(** No reading that the call takes for pruning or counting is later than
    [T]. *)
Definition reads_by (clk : Clock) (rd : Reads) (T : Z) : Prop :=
  time clk <= T
  /\ (forall i, at_minute rd i <= T)
  /\ (forall i, at_hour rd i <= T).

(** Every reading of the call lies in the minute that starts at [t0]. *)
Definition reads_in_minute (t0 : Z) (c : Clock * Reads) : Prop :=
  t0 <= time (fst c) < t0 + 60
  /\ (forall i, t0 <= at_minute (snd c) i < t0 + 60)
  /\ t0 <= at_log (snd c) < t0 + 60.

(** * Properties *)

(** ** Strings *)

Lemma is_space_lower_char (c : ascii) : is_space (lower_char c) = is_space c.
Proof. destruct c as [[] [] [] [] [] [] [] []]; reflexivity. Qed.

Lemma lstrip_lower (s : string) : lstrip (lower s) = lower (lstrip s).
Proof.
  induction s as [|c s IH]; simpl; [reflexivity|].
  rewrite is_space_lower_char. destruct (is_space c); [exact IH|reflexivity].
Qed.

Lemma rstrip_lower (s : string) : rstrip (lower s) = lower (rstrip s).
Proof.
  induction s as [|c s IH]; simpl; [reflexivity|].
  rewrite IH, is_space_lower_char.
  destruct (rstrip s); simpl; [destruct (is_space c)|]; reflexivity.
Qed.

(** Trimming and lower-casing commute: the order of the source,
    [.strip().lower()], and the order of the specification's words agree. *)
Lemma strip_lower (s : string) : strip (lower s) = lower (strip s).
Proof. unfold strip. by rewrite lstrip_lower, rstrip_lower. Qed.

(** ** Pruning *)

Section Pruning.

Variable v : Valves.

Lemma keeps_in_active_window (now req : Z) (b : bool) :
  keeps v now req = Ok b -> b = in_active_window v now req.
Proof.
  unfold keeps, in_active_window.
  destruct (requests_per_minute v), (requests_per_hour v),
    (sliding_window_limit v), (sliding_window_minutes v);
    simpl; destruct (now - req <? 60), (now - req <? 3600); simpl;
    intros H; inversion H; rewrite ?orb_true_r; reflexivity.
Qed.

Lemma keeps_total (now req : Z) :
  window_length_known v -> keeps v now req = Ok (in_active_window v now req).
Proof.
  intros Hk. destruct (keeps v now req) as [b|e] eqn:E.
  - f_equal. by apply keeps_in_active_window.
  - exfalso. revert E. unfold keeps.
    destruct Hk as [Hk|Hk].
    + rewrite Hk. repeat case_match; discriminate.
    + destruct (sliding_window_minutes v); [|done].
      repeat case_match; discriminate.
Qed.

Lemma keeps_raises (now req : Z) (e : exn) :
  keeps v now req = Raise e ->
  e = TypeError /\ sliding_window_limit v <> None
  /\ sliding_window_minutes v = None.
Proof.
  unfold keeps. repeat case_match; intros Hr; inversion Hr; subst; done.
Qed.

Lemma prune_list_filter (now : Z) (l l' : list Z) :
  prune_list v now l = Ok l' -> l' = List.filter (in_active_window v now) l.
Proof.
  revert l'. induction l as [|req l IH]; simpl; intros l' H.
  - by inversion H.
  - destruct (keeps v now req) as [b|] eqn:Ek; [|discriminate].
    destruct (prune_list v now l) as [r|]; [|discriminate].
    inversion H; subst. rewrite <- (keeps_in_active_window _ _ _ Ek).
    rewrite (IH r eq_refl). reflexivity.
Qed.

Lemma prune_list_total (now : Z) (l : list Z) :
  window_length_known v ->
  prune_list v now l = Ok (List.filter (in_active_window v now) l).
Proof.
  intros Hk. induction l as [|req l IH]; simpl; [reflexivity|].
  rewrite (keeps_total _ _ Hk), IH. reflexivity.
Qed.

Lemma prune_list_raises (now : Z) (l : list Z) (e : exn) :
  prune_list v now l = Raise e -> e = TypeError /\ ~ window_length_known v.
Proof.
  induction l as [|req l IH]; simpl; [discriminate|].
  destruct (keeps v now req) as [b|e'] eqn:Ek.
  - destruct (prune_list v now l); [discriminate|].
    intros H; inversion H; subst. by apply IH.
  - intros H; inversion H; subst.
    destruct (keeps_raises _ _ _ Ek) as (-> & Hl & Hm).
    split; [reflexivity|]. intros [?|?]; congruence.
Qed.

(** A pruned list passes the comprehension unchanged. *)
Lemma prune_list_idempotent (now : Z) (l l' : list Z) :
  prune_list v now l = Ok l' -> prune_list v now l' = Ok l'.
Proof.
  revert l'. induction l as [|req l IH]; simpl; intros l' H.
  - by inversion H.
  - destruct (keeps v now req) as [b|] eqn:Ek; [|discriminate].
    destruct (prune_list v now l) as [r|]; [|discriminate].
    inversion H; subst. specialize (IH r eq_refl).
    destruct b; [|exact IH]. simpl. by rewrite Ek, IH.
Qed.

Lemma filter_length_le {A} (f : A -> bool) (l : list A) :
  (length (List.filter f l) <= length l)%nat.
Proof. induction l as [|a l IH]; simpl; [lia|]. destruct (f a); simpl; lia. Qed.

Lemma filter_sublist {A} (f : A -> bool) (l : list A) :
  sublist (List.filter f l) l.
Proof.
  induction l as [|a l IH]; simpl; [constructor|].
  destruct (f a); by constructor.
Qed.

(** Counting inside a window is blind to the removal of entries that some
    predicate [f] rejects, as long as [f] accepts the whole window. *)
Lemma count_within_filter (f : Z -> bool) (w now : Z) (l : list Z) :
  (forall req, now - req < w -> f req = true) ->
  count_within w now (List.filter f l) = count_within w now l.
Proof.
  intros Hf. unfold count_within. f_equal. f_equal.
  induction l as [|req l IH]; simpl; [reflexivity|].
  destruct (now - req <? w) eqn:Ew.
  - rewrite (Hf req) by lia. simpl. rewrite Ew. by rewrite IH.
  - destruct (f req); simpl; rewrite ?Ew; exact IH.
Qed.

Lemma count_within_le_length (w now : Z) (l : list Z) :
  count_within w now l <= Z.of_nat (length l).
Proof. unfold count_within. pose proof (filter_length_le (fun req => now - req <? w) l). lia. Qed.

Lemma in_active_window_minute (now req : Z) :
  requests_per_minute v <> None -> now - req < 60 ->
  in_active_window v now req = true.
Proof.
  intros Hm Hlt. unfold in_active_window.
  destruct (requests_per_minute v); [|done]. simpl.
  replace (now - req <? 60) with true by lia. reflexivity.
Qed.



(** An entry inside some active window is younger than the longest one. *)
Lemma in_active_window_max (now req : Z) :
  in_active_window v now req = true ->
  exists W, max_lookback v = Some W /\ now - req < W.
Proof.
  unfold in_active_window, max_lookback, active_windows.
  destruct (requests_per_minute v), (requests_per_hour v),
    (sliding_window_limit v), (sliding_window_minutes v); simpl;
    rewrite ?orb_false_r; intros H;
    repeat match goal with
           | H : _ || _ = true |- _ => apply orb_true_iff in H; destruct H
           | H : (_ <? _) = true |- _ => apply Z.ltb_lt in H
           end;
    try discriminate; eexists; (split; [reflexivity|lia]).
Qed.

Lemma max_lookback_None (now req : Z) :
  max_lookback v = None -> in_active_window v now req = false.
Proof.
  intros HN. destruct (in_active_window v now req) eqn:E; [|reflexivity].
  destruct (in_active_window_max _ _ E) as (W & HW & _). congruence.
Qed.

(** What [prune_requests] does when it returns: the user's list is
    filtered, the other lists are left alone. *)
Lemma prune_requests_ok (uid : pyval) (now : Z) (st st' : store) :
  prune_requests v uid now st = (Ok tt, st') ->
  history st' uid = List.filter (in_active_window v now) (history st uid)
  /\ forall k, k <> uid -> st' !! k = st !! k.
Proof.
  unfold prune_requests, history. destruct (st !! uid) as [l|] eqn:El.
  - destruct (prune_list v now l) as [l'|] eqn:Ep; [|discriminate].
    intros H; inversion H; subst. rewrite lookup_insert_eq. simpl.
    split; [by apply prune_list_filter|].
    intros k Hk. by rewrite lookup_insert_ne.
  - intros H; inversion H; subst. rewrite El. by split.
Qed.

Lemma prune_requests_raises (uid : pyval) (now : Z) (st st' : store) (e : exn) :
  prune_requests v uid now st = (Raise e, st') ->
  e = TypeError /\ st' = st /\ ~ window_length_known v.
Proof.
  unfold prune_requests. destruct (st !! uid) as [l|]; [|discriminate].
  destruct (prune_list v now l) as [l'|e'] eqn:Ep; [discriminate|].
  intros H; inversion H; subst.
  destruct (prune_list_raises _ _ _ Ep). done.
Qed.

(** With the window length known, [prune_requests] returns. *)
Lemma prune_requests_total (uid : pyval) (now : Z) (st : store) :
  window_length_known v ->
  exists st', prune_requests v uid now st = (Ok tt, st').
Proof.
  intros Hk. unfold prune_requests. destruct (st !! uid) as [l|]; [|eauto].
  rewrite (prune_list_total _ _ Hk). eauto.
Qed.

End Pruning.

(** ** The verdict and the entry point *)

Section Inlet.

Variable v : Valves.

Lemma rate_limited_ok (uid : pyval) (now : Z) (st st' : store) (b : bool) :
  rate_limited v uid now st = (Ok b, st') ->
  prune_requests v uid now st = (Ok tt, st')
  /\ b = over_limit v now (history st' uid).
Proof.
  unfold rate_limited, bind.
  destruct (prune_requests v uid now st) as [[[]|e] st1]; [|discriminate].
  intros H; inversion H; subst. by split.
Qed.

Lemma rate_limited_raises (uid : pyval) (now : Z) (st st' : store) (e : exn) :
  rate_limited v uid now st = (Raise e, st') ->
  e = TypeError /\ st' = st /\ ~ window_length_known v.
Proof.
  unfold rate_limited, bind.
  destruct (prune_requests v uid now st) as [[[]|e'] st1] eqn:Ep; [discriminate|].
  intros H; inversion H; subst. by apply (prune_requests_raises v uid now).
Qed.

Lemma rate_limited_total (uid : pyval) (now : Z) (st : store) :
  window_length_known v ->
  exists st', prune_requests v uid now st = (Ok tt, st')
    /\ rate_limited v uid now st = (Ok (over_limit v now (history st' uid)), st').
Proof.
  intros Hk. destruct (prune_requests_total v uid now st Hk) as [st' Hp].
  exists st'. split; [exact Hp|]. unfold rate_limited, bind. by rewrite Hp.
Qed.

(** The body of [inlet] for a request that is subject to the limits. *)
Lemma inlet_enforced {Body} (body : Body) (u : dict) (clk : Clock) (st : store) :
  role_is_user u = true -> is_exempt v (Some u) = false ->
  applies_today v clk = true ->
  inlet v body (Some u) clk st =
  (limited <- rate_limited v (user_id_of u) (time clk) ;;
   if limited then raise RateLimitExceeded
   else log_request (user_id_of u) (time clk) ;;; ret body) st.
Proof.
  intros Hr He Ha. unfold inlet, applies_today in *.
  rewrite Hr. rewrite He. simpl negb. cbv iota. rewrite Ha. reflexivity.
Qed.

(** Every other request is returned as it came. *)
Lemma inlet_bypass {Body} (body : Body) (u : dict) (clk : Clock) (st : store) :
  role_is_user u = false \/ is_exempt v (Some u) = true
  \/ applies_today v clk = false ->
  inlet v body (Some u) clk st = (Ok body, st).
Proof.
  unfold inlet, applies_today. intros [H|[H|H]].
  - by rewrite H.
  - rewrite H. by destruct (role_is_user u).
  - rewrite H. by destruct (role_is_user u), (is_exempt v (Some u)).
Qed.

(** Whatever [inlet] raises, only pruning has touched the history. *)
Lemma inlet_raises {Body} (body : Body) (user : option dict) (clk : Clock)
    (st st' : store) (e : exn) :
  inlet v body user clk st = (Raise e, st') ->
  (user = None /\ e = AttributeError /\ st' = st)
  \/ (e = TypeError /\ st' = st /\ ~ window_length_known v)
  \/ (exists u, user = Some u /\ e = RateLimitExceeded
      /\ prune_requests v (user_id_of u) (time clk) st = (Ok tt, st')
      /\ over_limit v (time clk) (history st' (user_id_of u)) = true).
Proof.
  unfold inlet, ret, raise. destruct user as [u|].
  2:{ intros H; inversion H; subst. by left. }
  destruct (role_is_user u); [|discriminate].
  destruct (is_exempt v (Some u)); [discriminate|]. cbn [negb].
  destruct (negb (weekdays_only v) || is_weekday clk); [|discriminate].
  unfold bind.
  destruct (rate_limited v (user_id_of u) (time clk) st) as [[b|e'] st1] eqn:Er.
  - destruct (rate_limited_ok _ _ _ _ _ Er) as [Hp Hb].
    destruct b.
    + intros H; inversion H; subst.
      right; right. exists u. repeat split; [exact Hp|by rewrite <- Hb].
    + unfold log_request. discriminate.
  - intros H; inversion H; subst.
    destruct (rate_limited_raises _ _ _ _ _ Er) as (-> & -> & Hn).
    right; left. done.
Qed.

(** For a user record and valves whose window length is known, [inlet]
    returns the body or raises the rejection signal, nothing else. *)
Lemma inlet_record_outcome {Body} (body : Body) (u : dict) (clk : Clock)
    (st : store) :
  window_length_known v ->
  fst (inlet v body (Some u) clk st) = Ok body
  \/ fst (inlet v body (Some u) clk st) = Raise RateLimitExceeded.
Proof.
  intros Hk.
  destruct (inlet v body (Some u) clk st) as [[b|e] st'] eqn:E; simpl.
  - left. revert E. unfold inlet, ret, raise.
    destruct (role_is_user u); [|by intros H; inversion H].
    destruct (is_exempt v (Some u)); [by intros H; inversion H|].
    cbn [negb].
    destruct (negb (weekdays_only v) || is_weekday clk);
      [|by intros H; inversion H].
    unfold bind.
    destruct (rate_limited v (user_id_of u) (time clk) st) as [[[]|] ?];
      unfold log_request; intros H; inversion H; done.
  - right. destruct (inlet_raises _ _ _ _ _ _ E) as [(?&_)|[(_&_&Hn)|(?&_&->&_)]];
      [discriminate|tauto|reflexivity].
Qed.

(** A record without an ["id"] key is counted in the bucket
    ["default_user"]. *)
Lemma user_id_of_missing (u : dict) :
  u !! "id" = None -> user_id_of u = PStr "default_user".
Proof. intros H. unfold user_id_of. rewrite H. by destruct (negb _). Qed.

End Inlet.

(** ** The sliding-window count *)

(** C1.  The count that [rate_limited] compares with
    [sliding_window_limit] is the length of the whole pruned list, and
    pruning keeps every entry that the per-hour rule still needs.  With
    the per-hour rule set and a sliding window of one minute and one
    request, a user asks at instant 0 and again 100 seconds later: no
    recorded request is then younger than 60 seconds, yet the second
    request is refused, the entry of instant 0 being counted. *)
Theorem C1_sliding_count_includes_older_entries :
  let v := with_sliding (Some 1) (Some 1) (with_hour 1000 no_limits) in
  calls v (plain_user "u1") [monday 0; monday 100] ∅
  = ([Ok tt; Raise RateLimitExceeded], one_history "u1" [0])
  /\ count_within (1 * 60) 100 (history (one_history "u1" [0]) (PStr "u1")) = 0
  /\ over_limit v 100 (history (one_history "u1" [0]) (PStr "u1")) = true
  /\ over_limit (with_sliding (Some 1) (Some 1) no_limits) 100 [] = false.
Proof. repeat split; vm_compute; reflexivity. Qed.

(** The sliding-window test is on the length of the list, whatever the
    window: it fires as soon as the retained list is that long. *)
Lemma over_limit_sliding (v : Valves) (now N : Z) (l : list Z) :
  sliding_window_limit v = Some N -> N <= Z.of_nat (length l) ->
  over_limit v now l = true.
Proof.
  intros Hl Hle. unfold over_limit. rewrite Hl.
  repeat case_match; try reflexivity; lia.
Qed.

Lemma over_limit_minute (v : Valves) (now N : Z) (l : list Z) :
  requests_per_minute v = Some N -> N <= count_within 60 now l ->
  over_limit v now l = true.
Proof.
  intros Hl Hle. unfold over_limit. rewrite Hl.
  replace (N <=? count_within 60 now l) with true by lia. reflexivity.
Qed.

Lemma over_limit_hour (v : Valves) (now N : Z) (l : list Z) :
  requests_per_hour v = Some N -> N <= count_within 3600 now l ->
  over_limit v now l = true.
Proof.
  intros Hl Hle. unfold over_limit. rewrite Hl.
  replace (N <=? count_within 3600 now l) with true by lia.
  by case_match.
Qed.

(** ** A sliding-window pair that is half set *)

(** C2.  With [sliding_window_limit] set and [sliding_window_minutes]
    left at [None], and no other rule, the second request of a user raises
    [TypeError]: the comprehension of [prune_requests] reaches
    [sliding_window_minutes * 60].  With the per-minute rule keeping the
    entry, pruning returns and the sliding-window test refuses the request
    on the limit alone, where the same valves without the limit let it
    through. *)
Theorem C2_limit_without_minutes :
  calls (with_sliding (Some 5) None no_limits) (plain_user "u1")
    [monday 0; monday 1] ∅
  = ([Ok tt; Raise TypeError], one_history "u1" [0])
  /\ calls (with_sliding (Some 1) None (with_minute 10 no_limits))
       (plain_user "u1") [monday 0; monday 1] ∅
     = ([Ok tt; Raise RateLimitExceeded], one_history "u1" [0])
  /\ calls (with_minute 10 no_limits) (plain_user "u1")
       [monday 0; monday 1] ∅
     = ([Ok tt; Ok tt], one_history "u1" [0; 1]).
Proof. repeat split; vm_compute; reflexivity. Qed.

(** The other half holds: with the limit left at [None] the length of the
    window is never looked at, and [inlet] behaves as without the rule. *)
Lemma minutes_without_limit_inert {Body} (v : Valves) (body : Body)
    (user : option dict) (clk : Clock) (st : store) :
  sliding_window_limit v = None ->
  inlet v body user clk st
  = inlet (with_sliding None None v) body user clk st.
Proof.
  intros Hl.
  assert (Hk : forall now req, keeps v now req
                 = keeps (with_sliding None None v) now req).
  { intros. unfold keeps. simpl. by rewrite Hl. }
  assert (Hp : forall now l, prune_list v now l
                 = prune_list (with_sliding None None v) now l).
  { intros now l. induction l as [|req l IH]; simpl; [reflexivity|].
    by rewrite Hk, IH. }
  assert (Ho : forall now l, over_limit v now l
                 = over_limit (with_sliding None None v) now l).
  { intros. unfold over_limit. simpl. by rewrite Hl. }
  assert (Hr : forall uid now s, rate_limited v uid now s
                 = rate_limited (with_sliding None None v) uid now s).
  { intros. unfold rate_limited, bind, prune_requests.
    destruct (s !! uid) as [l|]; [rewrite Hp|]; [|by rewrite Ho].
    destruct (prune_list _ now l); [by rewrite Ho|reflexivity]. }
  unfold inlet. destruct user as [u|]; [|reflexivity].
  change (is_exempt (with_sliding None None v) (Some u))
    with (is_exempt v (Some u)).
  change (weekdays_only (with_sliding None None v)) with (weekdays_only v).
  destruct (role_is_user u); [|reflexivity].
  destruct (negb (is_exempt v (Some u))); [|reflexivity].
  destruct (negb (weekdays_only v) || is_weekday clk); [|reflexivity].
  unfold bind. by rewrite Hr.
Qed.

(** ** Absent and incomplete user records *)

(** C3.  [inlet] called without a user record raises [AttributeError]
    at [user.get("role", "admin")], before any test, whatever the valves,
    the clock and the history. *)
Theorem C3_absent_user_raises {Body} (v : Valves) (body : Body)
    (clk : Clock) (st : store) :
  inlet v body None clk st = (Raise AttributeError, st).
Proof. reflexivity. Qed.

(** ** The clock read more than once *)

Lemma log_request_store (uid : pyval) (now : Z) (st : store) :
  log_request uid now st
  = (Ok tt, <[uid := (history st uid ++ [now])%list]> st).
Proof.
  unfold log_request, history. destruct (st !! uid) as [l|] eqn:El.
  - by rewrite El.
  - by rewrite lookup_insert_eq, insert_insert_eq.
Qed.

Lemma count_reads_still (w t : Z) (i : nat) (l : list Z) :
  count_reads w (fun _ => t) i l = count_within w t l.
Proof.
  revert i. unfold count_within.
  induction l as [|req l IH]; intros i; simpl; [reflexivity|].
  rewrite IH. destruct (t - req <? w); simpl; lia.
Qed.

Lemma over_limit_reads_still (v : Valves) (t : Z) (l : list Z) :
  over_limit_reads v (still t) l = over_limit v t l.
Proof.
  unfold over_limit_reads, over_limit. simpl. by rewrite !count_reads_still.
Qed.

(** Under a clock that stands still, the call with its own readings is
    [inlet]. *)
Lemma inlet_reads_still {Body} (v : Valves) (body : Body)
    (user : option dict) (clk : Clock) (st : store) :
  inlet_reads v body user clk (still (time clk)) st
  = inlet v body user clk st.
Proof.
  unfold inlet_reads, inlet. destruct user as [u|]; [|reflexivity].
  destruct (role_is_user u); [|reflexivity].
  destruct (negb (is_exempt v (Some u))); [|reflexivity].
  destruct (negb (weekdays_only v) || is_weekday clk); [|reflexivity].
  unfold bind, rate_limited_reads, rate_limited, bind.
  destruct (prune_requests v (user_id_of u) (time clk) st) as [[[]|e] st1];
    [|reflexivity].
  by rewrite over_limit_reads_still.
Qed.

Lemma count_reads_nonneg (w : Z) (reads : nat -> Z) (i : nat) (l : list Z) :
  0 <= count_reads w reads i l.
Proof.
  revert i. induction l as [|req l IH]; intros i; simpl; [lia|].
  specialize (IH (S i)). destruct (reads i - req <? w); lia.
Qed.

Lemma count_reads_le_length (w : Z) (reads : nat -> Z) (i : nat)
    (l : list Z) :
  count_reads w reads i l <= Z.of_nat (length l).
Proof.
  revert i. induction l as [|req l IH]; intros i; simpl length; simpl; [lia|].
  specialize (IH (S i)). destruct (reads i - req <? w); lia.
Qed.

(** An entry that is inside the window at an instant that no reading
    exceeds is inside it at its reading. *)
Lemma count_reads_ge (w : Z) (reads : nat -> Z) (T : Z) (i : nat)
    (l : list Z) :
  (forall j, reads j <= T) ->
  count_within w T l <= count_reads w reads i l.
Proof.
  intros HT. revert i. unfold count_within.
  induction l as [|req l IH]; intros i; simpl; [lia|].
  specialize (IH (S i)). specialize (HT i).
  destruct (T - req <? w) eqn:E1; destruct (reads i - req <? w) eqn:E2;
    simpl length; lia.
Qed.

Lemma over_limit_reads_minute (v : Valves) (rd : Reads) (N : Z)
    (l : list Z) :
  requests_per_minute v = Some N ->
  N <= count_reads 60 (at_minute rd) 0 l ->
  over_limit_reads v rd l = true.
Proof.
  intros Hl Hle. unfold over_limit_reads. rewrite Hl.
  replace (N <=? count_reads 60 (at_minute rd) 0 l) with true by lia.
  reflexivity.
Qed.



Lemma over_limit_reads_false (v : Valves) (rd : Reads) (l : list Z) :
  over_limit_reads v rd l = false ->
  (forall N, requests_per_minute v = Some N ->
     count_reads 60 (at_minute rd) 0 l < N)
  /\ (forall N, requests_per_hour v = Some N ->
        count_reads 3600 (at_hour rd) 0 l < N)
  /\ (forall N, sliding_window_limit v = Some N -> Z.of_nat (length l) < N).
Proof.
  unfold over_limit_reads. intros H.
  repeat split; intros N HN; rewrite HN in H;
    repeat match type of H with
           | context [?a <=? ?b] => destruct (Z.leb_spec a b)
           | context [match ?o with Some _ => _ | None => _ end] => destruct o
           end; try discriminate; lia.
Qed.

(** A call under enforcement, every instant from its own reading. *)
Lemma inlet_reads_enforced_run {Body} (v : Valves) (body : Body) (u : dict)
    (clk : Clock) (rd : Reads) (st : store) :
  role_is_user u = true -> is_exempt v (Some u) = false ->
  applies_today v clk = true ->
  inlet_reads v body (Some u) clk rd st
  = match prune_requests v (user_id_of u) (time clk) st with
    | (Ok _, st1) =>
        if over_limit_reads v rd (history st1 (user_id_of u))
        then (Raise RateLimitExceeded, st1)
        else (Ok body,
              <[user_id_of u :=
                  (history st1 (user_id_of u) ++ [at_log rd])%list]> st1)
    | (Raise e, st1) => (Raise e, st1)
    end.
Proof.
  intros Hr He Ha. unfold inlet_reads, applies_today in *.
  rewrite Hr, He. cbn [negb]. rewrite Ha.
  unfold bind, rate_limited_reads, bind.
  destruct (prune_requests v (user_id_of u) (time clk) st) as [[[]|e] st1];
    [|reflexivity].
  unfold history at 1.
  destruct (over_limit_reads v rd (default [] (st1 !! user_id_of u)));
    [reflexivity|].
  by rewrite log_request_store.
Qed.

Lemma inlet_reads_enforced_or_not {Body} (v : Valves) (body : Body)
    (u : dict) (clk : Clock) (rd : Reads) (st : store) :
  (role_is_user u = true /\ is_exempt v (Some u) = false
   /\ applies_today v clk = true)
  \/ inlet_reads v body (Some u) clk rd st = (Ok body, st).
Proof.
  unfold inlet_reads, applies_today.
  destruct (role_is_user u); [|by right].
  destruct (is_exempt v (Some u)); [by right|]. cbn [negb].
  destruct (negb (weekdays_only v) || is_weekday clk); [by left|by right].
Qed.

(** A refused call has pruned, and done nothing else. *)
Lemma inlet_reads_rejected {Body} (v : Valves) (body : Body)
    (user : option dict) (clk : Clock) (rd : Reads) (st st' : store) :
  inlet_reads v body user clk rd st = (Raise RateLimitExceeded, st') ->
  exists u, user = Some u
    /\ role_is_user u = true /\ is_exempt v (Some u) = false
    /\ applies_today v clk = true
    /\ prune_requests v (user_id_of u) (time clk) st = (Ok tt, st')
    /\ over_limit_reads v rd (history st' (user_id_of u)) = true.
Proof.
  destruct user as [u|]; [|discriminate].
  destruct (inlet_reads_enforced_or_not v body u clk rd st)
    as [(Hr & He & Ha) | ->]; [|discriminate].
  rewrite (inlet_reads_enforced_run v body u clk rd st Hr He Ha).
  destruct (prune_requests v (user_id_of u) (time clk) st)
    as [[[]|e] st1] eqn:Ep.
  - destruct (over_limit_reads v rd (history st1 (user_id_of u))) eqn:Eo;
      [|discriminate].
    intros H; inversion H; subst. by exists u.
  - destruct (prune_requests_raises v _ _ _ _ _ Ep) as (-> & _).
    discriminate.
Qed.

Lemma prune_requests_lookup (v : Valves) (uid : pyval) (now : Z)
    (st st' : store) :
  prune_requests v uid now st = (Ok tt, st') ->
  st' !! uid = List.filter (in_active_window v now) <$> st !! uid.
Proof.
  unfold prune_requests. destruct (st !! uid) as [l|] eqn:El.
  - destruct (prune_list v now l) as [l'|] eqn:Ep; [|discriminate].
    intros H; inversion H; subst. rewrite lookup_insert_eq. simpl.
    by rewrite (prune_list_filter v _ _ _ Ep).
  - intros H; inversion H; subst. by rewrite El.
Qed.

(** The clock moves on between pruning and counting: a user with one
    request a minute and an entry of instant 0 calls when the clock reads
    59; the entry is kept, and a second later it is no longer counted. *)
Example clock_moves_during_call :
  inlet_reads (with_minute 1 no_limits) tt (Some (plain_user "u1"))
    (monday 59) (still 60) (one_history "u1" [0])
  = (Ok tt, one_history "u1" [0; 60])
  /\ inlet (with_minute 1 no_limits) tt (Some (plain_user "u1"))
       (monday 59) (one_history "u1" [0])
     = (Raise RateLimitExceeded, one_history "u1" [0]).
Proof. split; reflexivity. Qed.

(** ** Thresholds *)



(** The scenario of the specification: two requests a minute, calls at
    seconds 0, 1 and 2. *)
Example two_per_minute_scenario :
  calls (with_minute 2 no_limits) (plain_user "u1")
    [monday 0; monday 1; monday 2] ∅
  = ([Ok tt; Ok tt; Raise RateLimitExceeded], one_history "u1" [0; 1]).
Proof. vm_compute. reflexivity. Qed.

(** The sliding-window scenario: three requests per minute. *)
Example sliding_scenario :
  fst (calls (with_sliding (Some 3) (Some 1) no_limits) (plain_user "u2")
         [monday 0; monday 0; monday 0; monday 30; monday 61] ∅)
  = [Ok tt; Ok tt; Ok tt; Raise RateLimitExceeded; Ok tt].
Proof. vm_compute. reflexivity. Qed.

(** ** What a rejected request leaves behind *)

(** Every window of an active rule is covered by the pruning test. *)
Lemma active_window_covered (v : Valves) (w now req : Z) :
  In w (active_windows v) -> now - req < w ->
  in_active_window v now req = true.
Proof.
  unfold active_windows, in_active_window.
  destruct (requests_per_minute v), (requests_per_hour v),
    (sliding_window_limit v), (sliding_window_minutes v); simpl;
    intros Hw Hlt;
    repeat match goal with
           | H : _ \/ _ |- _ => destruct H
           | H : False |- _ => destruct H
           end; subst;
    repeat match goal with
           | |- context [?a <? ?b] =>
               first [replace (a <? b) with true by lia
                     |destruct (a <? b)]
           end; reflexivity.
Qed.

(** C5, as the specification states it, fails: a rejected call has
    pruned first.  With one request a minute and a thousand an hour, a
    user asks at seconds 0 and 3590 and is let through; the call at second
    3600 is refused, and the stored history has gone from two entries to
    one, the entry of second 0 having left the hour. *)
Lemma C5_rejection_shortens_history :
  let v := with_hour 1000 (with_minute 1 no_limits) in
  calls v (plain_user "u1") [monday 0; monday 3590] ∅
  = ([Ok tt; Ok tt], one_history "u1" [0; 3590])
  /\ inlet v tt (Some (plain_user "u1")) (monday 3600)
       (one_history "u1" [0; 3590])
     = (Raise RateLimitExceeded, one_history "u1" [3590])
  /\ length (history (one_history "u1" [3590]) (PStr "u1"))
     <> length (history (one_history "u1" [0; 3590]) (PStr "u1")).
Proof. repeat split; vm_compute; [reflexivity..|discriminate]. Qed.

(** C5, amended.  A rejected call does not append the instant of the
    call; it only prunes.  The list of the caller's id after the call is
    exactly its list before the call without the entries outside every
    active window at the pruning instant, and every other id keeps what
    it had.  So the list is not longer, and the number of its entries
    inside the window of each active rule is the same before and after:
    no capacity is consumed. *)
Theorem C5_rejection_only_prunes {Body} (v : Valves) (body : Body)
    (user : option dict) (clk : Clock) (rd : Reads) (st st' : store) :
  inlet_reads v body user clk rd st = (Raise RateLimitExceeded, st') ->
  exists u,
    user = Some u
    /\ st' !! user_id_of u
       = List.filter (in_active_window v (time clk)) <$> st !! user_id_of u
    /\ (forall k, k <> user_id_of u -> st' !! k = st !! k)
    /\ history st' (user_id_of u)
       = List.filter (in_active_window v (time clk))
           (history st (user_id_of u))
    /\ (length (history st' (user_id_of u))
        <= length (history st (user_id_of u)))%nat
    /\ forall w, In w (active_windows v) ->
         count_within w (time clk) (history st' (user_id_of u))
         = count_within w (time clk) (history st (user_id_of u)).
Proof.
  intros H.
  destruct (inlet_reads_rejected v body user clk rd st st' H)
    as (u & -> & _ & _ & _ & Hp & _).
  exists u. split; [reflexivity|].
  split; [by apply prune_requests_lookup|].
  destruct (prune_requests_ok v _ _ _ _ Hp) as [Hh Hother].
  split; [exact Hother|]. split; [exact Hh|]. rewrite Hh.
  split; [apply filter_length_le|].
  intros w Hw. apply count_within_filter.
  intros req. by apply active_window_covered.
Qed.

Lemma C5_rejection_only_prunes_witness :
  let v := with_hour 1000 (with_minute 1 no_limits) in
  let rd := {| at_minute := fun _ => 3601; at_hour := fun _ => 3602;
               at_log := 3603 |} in
  let u := plain_user "u1" in
  let st := <[PStr "u2" := [5]]> (one_history "u1" [0; 3590]) in
  let st' := <[PStr "u2" := [5]]> (one_history "u1" [3590]) in
  inlet_reads v tt (Some u) (monday 3600) rd st
  = (Raise RateLimitExceeded, st')
  /\ exists u0,
       Some u = Some u0
       /\ st' !! user_id_of u0
          = List.filter (in_active_window v (time (monday 3600)))
              <$> st !! user_id_of u0
       /\ (forall k, k <> user_id_of u0 -> st' !! k = st !! k)
       /\ history st' (user_id_of u0)
          = List.filter (in_active_window v (time (monday 3600)))
              (history st (user_id_of u0))
       /\ Nat.le (length (history st' (user_id_of u0)))
                 (length (history st (user_id_of u0)))
       /\ forall w, In w (active_windows v) ->
            count_within w (time (monday 3600)) (history st' (user_id_of u0))
            = count_within w (time (monday 3600))
                (history st (user_id_of u0)).
Proof.
  intros v rd u st st'. split; [reflexivity|].
  apply (C5_rejection_only_prunes v tt (Some u) (monday 3600) rd st st').
  reflexivity.
Defined.

(** ** Days without enforcement *)

(** C6.  With [weekdays_only] set, a call made for a user record on a
    Saturday or a Sunday returns the body and leaves
    [self.user_requests] as it was, whatever it holds. *)
Theorem C6_weekend_suspends {Body} (v : Valves) (body : Body) (u : dict)
    (clk : Clock) (st : store) :
  weekdays_only v = true ->
  weekday clk = 5 \/ weekday clk = 6 ->
  inlet v body (Some u) clk st = (Ok body, st).
Proof.
  intros Hw Hd. apply inlet_bypass.
  right; right. unfold applies_today, is_weekday. rewrite Hw. simpl.
  destruct Hd as [-> | ->]; reflexivity.
Qed.

Lemma C6_weekend_suspends_witness :
  let v := with_weekdays_only true (with_minute 1 no_limits) in
  weekdays_only v = true
  /\ (weekday (saturday 3) = 5 \/ weekday (saturday 3) = 6)
  /\ inlet v tt (Some (plain_user "u1")) (saturday 3)
       (one_history "u1" [0; 1; 2])
     = (Ok tt, one_history "u1" [0; 1; 2]).
Proof.
  intros v. split; [reflexivity|]. split; [left; reflexivity|].
  apply (C6_weekend_suspends v tt (plain_user "u1") (saturday 3));
    [reflexivity|left; reflexivity].
Defined.

(** ** Exempt users *)

Lemma field_matches_inv (u : dict) (k : string) (norm : string -> string)
    (l : list string) :
  field_matches u k norm l = true ->
  exists s, u !! k = Some (PStr s) /\ str_in (norm s) l = true.
Proof.
  unfold field_matches. destruct (u !! k) as [[|s]|]; try discriminate.
  intros H. by exists s.
Qed.

Lemma str_in_nonempty (x : string) (l : list string) :
  str_in x l = true -> is_empty_list l = false.
Proof. by destruct l. Qed.

Lemma lookup_nonempty (u : dict) (k : string) (x : pyval) :
  u !! k = Some x -> is_empty_dict u = false.
Proof.
  intros H. unfold is_empty_dict. apply bool_decide_eq_false.
  intros ->. by rewrite lookup_empty in H.
Qed.

(** The test of the source accepts every user the (amended) wording
    accepts. *)
Lemma exempt_trimmed_id_is_exempt (v : Valves) (u : dict) :
  exempt_trimmed_id v u = true -> is_exempt v (Some u) = true.
Proof.
  unfold exempt_trimmed_id. intros H.
  apply orb_true_iff in H as [H|H]; [apply orb_true_iff in H as [H|H]|];
    apply field_matches_inv in H as (s & Hs & Hin);
    unfold is_exempt; rewrite (lookup_nonempty _ _ _ Hs).
  - unfold get_or_empty at 1. rewrite Hs. rewrite strip_lower in Hin.
    by rewrite Hin, (str_in_nonempty _ _ Hin).
  - destruct (negb (is_empty_list (exempt_usernames v)) && _); [done|].
    unfold get_or_empty. rewrite Hs. rewrite strip_lower in Hin.
    by rewrite Hin, (str_in_nonempty _ _ Hin).
  - destruct (negb (is_empty_list (exempt_usernames v)) && _); [done|].
    destruct (negb (is_empty_list (exempt_emails v)) && _); [done|].
    by rewrite Hs, Hin, (str_in_nonempty _ _ Hin).
Qed.

(** C7, as the specification states it, fails on ids with blanks around
    them: the source trims the id of the user before it looks it up, so an
    exempt id that is stored with its blanks is never matched.  The user
    below is exempt in the words of the specification and is refused on
    the second request. *)
Lemma C7_untrimmed_id_not_exempt :
  let v := with_exempt [] [" svc "] (with_minute 1 no_limits) in
  exempt_as_stated v (plain_user " svc ") = true
  /\ is_exempt v (Some (plain_user " svc ")) = false
  /\ calls v (plain_user " svc ") [monday 0; monday 1] ∅
     = ([Ok tt; Raise RateLimitExceeded], one_history " svc " [0]).
Proof. repeat split; vm_compute; reflexivity. Qed.

(** C7, amended.  A user whose username, lower-cased and trimmed, is among
    the exempt usernames, or whose email likewise is among the exempt
    emails, or whose id, as a string and trimmed, is among the exempt ids,
    gets the body back on every call, whatever the limits, the day and
    the history, and the history stays as it was. *)
Theorem C7_exempt_always_allowed {Body} (v : Valves) (body : Body)
    (u : dict) (clk : Clock) (st : store) :
  exempt_trimmed_id v u = true ->
  inlet v body (Some u) clk st = (Ok body, st).
Proof.
  intros H. apply inlet_bypass. right; left.
  by apply exempt_trimmed_id_is_exempt.
Qed.

Lemma C7_exempt_always_allowed_witness :
  let v := with_exempt ["admin"] [] (with_minute 0 no_limits) in
  exempt_trimmed_id v (named_user "u1" "Admin") = true
  /\ inlet v tt (Some (named_user "u1" "Admin")) (monday 5)
       (one_history "u1" [0; 1; 2; 3; 4])
     = (Ok tt, one_history "u1" [0; 1; 2; 3; 4]).
Proof.
  intros v. split; [reflexivity|].
  apply (C7_exempt_always_allowed v tt (named_user "u1" "Admin")).
  reflexivity.
Defined.

(** Any number of successive calls of an exempt user is let through. *)
Lemma exempt_calls_all_allowed (v : Valves) (u : dict) (clks : list Clock)
    (st : store) :
  is_exempt v (Some u) = true ->
  calls v u clks st = (map (fun _ => Ok tt) clks, st).
Proof.
  intros He. induction clks as [|clk clks IH]; cbn [calls map];
    [reflexivity|].
  rewrite (inlet_bypass v tt u clk st) by (right; left; exact He).
  by rewrite IH.
Qed.

(** The scenario of the specification: ["Admin"] against the exempt entry
    ["admin"]. *)
Example admin_mixed_case_exempt (clks : list Clock) (st : store) :
  calls (with_exempt ["admin"] [] (with_minute 0 no_limits))
    (named_user "u1" "Admin") clks st
  = (map (fun _ => Ok tt) clks, st).
Proof. apply exempt_calls_all_allowed. reflexivity. Qed.

(** ** The pruned list *)

Lemma filter_within_lookback (v : Valves) (now : Z) (l : list Z) :
  match max_lookback v with
  | Some W => Forall (fun req => now - req < W)
                (List.filter (in_active_window v now) l)
  | None => List.filter (in_active_window v now) l = []
  end.
Proof.
  destruct (max_lookback v) as [W|] eqn:EW.
  - induction l as [|req l IH]; simpl; [constructor|].
    destruct (in_active_window v now req) eqn:E; [|exact IH].
    constructor; [|exact IH].
    destruct (in_active_window_max v _ _ E) as (W' & HW' & Hlt).
    congruence.
  - induction l as [|req l IH]; simpl; [reflexivity|].
    by rewrite (max_lookback_None v now req EW).
Qed.

(** C8.  When [prune_requests] has returned for a user id, every instant
    left in the list of that id is younger than the longest window of the
    active rules (60 s, 3600 s, or [sliding_window_minutes * 60] s);
    without an active rule the list is empty. *)
Theorem C8_pruned_within_lookback (v : Valves) (uid : pyval) (now : Z)
    (st st' : store) :
  prune_requests v uid now st = (Ok tt, st') ->
  match max_lookback v with
  | Some W => Forall (fun req => now - req < W) (history st' uid)
  | None => history st' uid = []
  end.
Proof.
  intros Hp. destruct (prune_requests_ok v _ _ _ _ Hp) as [-> _].
  apply filter_within_lookback.
Qed.

Lemma C8_pruned_within_lookback_witness :
  let v := with_sliding (Some 100) (Some 15)
             (with_hour 1000 (with_minute 10 no_limits)) in
  prune_requests v (PStr "u1") 4000 (one_history "u1" [0; 300; 3500; 3990])
  = (Ok tt, one_history "u1" [3500; 3990])
  /\ max_lookback v = Some 3600
  /\ Forall (fun req => 4000 - req < 3600)
       (history (one_history "u1" [3500; 3990]) (PStr "u1")).
Proof.
  intros v. split; [reflexivity|]. split; [reflexivity|].
  apply (C8_pruned_within_lookback v (PStr "u1") 4000
           (one_history "u1" [0; 300; 3500; 3990])).
  reflexivity.
Defined.

(** The list that [rate_limited] counts is that pruned list. *)
Lemma counted_within_lookback (v : Valves) (uid : pyval) (now : Z)
    (st st' : store) (b : bool) :
  rate_limited v uid now st = (Ok b, st') ->
  b = over_limit v now (history st' uid)
  /\ match max_lookback v with
     | Some W => Forall (fun req => now - req < W) (history st' uid)
     | None => history st' uid = []
     end.
Proof.
  intros H. destruct (rate_limited_ok v _ _ _ _ _ H) as [Hp ->].
  split; [reflexivity|].
  destruct (prune_requests_ok v _ _ _ _ Hp) as [-> _].
  apply filter_within_lookback.
Qed.

(** Pruning keeps what is inside an active window. *)
Lemma pruned_keeps_active (v : Valves) (uid : pyval) (now req : Z)
    (st st' : store) :
  prune_requests v uid now st = (Ok tt, st') ->
  In req (history st uid) -> in_active_window v now req = true ->
  In req (history st' uid).
Proof.
  intros Hp Hin Ha. destruct (prune_requests_ok v _ _ _ _ Hp) as [-> _].
  apply filter_In. by split.
Qed.

(** C9.  Pruning twice at the same instant is pruning once: the same
    outcome, the same stored history, hence the same count inside every
    window. *)
Theorem C9_prune_idempotent (v : Valves) (uid : pyval) (now : Z)
    (st : store) :
  (prune_requests v uid now ;;; prune_requests v uid now) st
  = prune_requests v uid now st
  /\ forall k w,
       count_within w now
         (history (snd ((prune_requests v uid now ;;;
                         prune_requests v uid now) st)) k)
       = count_within w now (history (snd (prune_requests v uid now st)) k).
Proof.
  assert (E : (prune_requests v uid now ;;; prune_requests v uid now) st
              = prune_requests v uid now st).
  { unfold bind, prune_requests.
    destruct (st !! uid) as [l|] eqn:El.
    - destruct (prune_list v now l) as [l'|e] eqn:Ep; [|reflexivity].
      rewrite lookup_insert_eq, (prune_list_idempotent v _ _ _ Ep).
      by rewrite insert_insert_eq.
    - by rewrite El. }
  split; [exact E|]. intros k w. by rewrite E.
Qed.

(** ** Roles other than ["user"] *)

(** C10.  For a user record whose ["role"] is absent or is not
    ["user"], [inlet] returns the body it was given and leaves
    [self.user_requests] as it was, whatever the valves, the clock and the
    history. *)
Theorem C10_other_roles_bypass {Body} (v : Valves) (body : Body) (u : dict)
    (clk : Clock) (st : store) :
  u !! "role" <> Some (PStr "user") ->
  inlet v body (Some u) clk st = (Ok body, st).
Proof.
  intros Hr. apply inlet_bypass. left.
  unfold role_is_user. apply bool_decide_eq_false.
  destruct (u !! "role") as [x|]; simpl; [congruence|discriminate].
Qed.

Lemma C10_other_roles_bypass_witness :
  roleless_user "u1" !! "role" <> Some (PStr "user")
  /\ inlet (with_minute 0 no_limits) tt (Some (roleless_user "u1"))
       (monday 5) (one_history "u1" [0; 1; 2])
     = (Ok tt, one_history "u1" [0; 1; 2]).
Proof.
  assert (H : roleless_user "u1" !! "role" <> Some (PStr "user"))
    by (vm_compute; discriminate).
  split; [exact H|].
  apply (C10_other_roles_bypass (with_minute 0 no_limits) tt
           (roleless_user "u1") (monday 5)).
  exact H.
Defined.

Example admin_role_bypasses :
  inlet (with_minute 0 no_limits) tt (Some (admin_user "u1")) (monday 5)
    (one_history "u1" [0; 1; 2])
  = (Ok tt, one_history "u1" [0; 1; 2]).
Proof. reflexivity. Qed.

(** ** A request that is let through *)

Lemma log_request_history (uid : pyval) (now : Z) (st : store) :
  history (snd (log_request uid now st)) uid
  = (history st uid ++ [now])%list.
Proof.
  unfold log_request, history. simpl.
  destruct (st !! uid) as [l|] eqn:El.
  - by rewrite lookup_insert_eq, El.
  - by rewrite !lookup_insert_eq.
Qed.

Lemma count_within_app_one (w now : Z) (l : list Z) (req : Z) :
  count_within w now (l ++ [req]) <= count_within w now l + 1.
Proof.
  unfold count_within. rewrite List.filter_app, length_app. simpl.
  destruct (now - req <? w); simpl; lia.
Qed.

Lemma over_limit_false (v : Valves) (now : Z) (l : list Z) :
  over_limit v now l = false ->
  (forall N, requests_per_minute v = Some N -> count_within 60 now l < N)
  /\ (forall N, requests_per_hour v = Some N -> count_within 3600 now l < N)
  /\ (forall N, sliding_window_limit v = Some N -> Z.of_nat (length l) < N).
Proof.
  unfold over_limit. intros H.
  repeat split; intros N HN; rewrite HN in H;
    repeat match type of H with
           | context [?a <=? ?b] => destruct (Z.leb_spec a b)
           | context [match ?o with Some _ => _ | None => _ end] => destruct o
           end; try discriminate; lia.
Qed.

(** * Further properties of the filter *)

(** ** One call, step by step *)

(** A call under enforcement: prune, test, then refuse or record. *)
Lemma inlet_enforced_run {Body} (v : Valves) (body : Body) (u : dict)
    (clk : Clock) (st : store) :
  role_is_user u = true -> is_exempt v (Some u) = false ->
  applies_today v clk = true ->
  inlet v body (Some u) clk st
  = match prune_requests v (user_id_of u) (time clk) st with
    | (Ok _, st1) =>
        if over_limit v (time clk) (history st1 (user_id_of u))
        then (Raise RateLimitExceeded, st1)
        else (Ok body,
              <[user_id_of u :=
                  (history st1 (user_id_of u) ++ [time clk])%list]> st1)
    | (Raise e, st1) => (Raise e, st1)
    end.
Proof.
  intros Hr He Ha. rewrite (inlet_enforced v body u clk st Hr He Ha).
  unfold bind, rate_limited, bind.
  destruct (prune_requests v (user_id_of u) (time clk) st) as [[[]|e] st1];
    [|reflexivity].
  unfold history at 1.
  destruct (over_limit v (time clk) (default [] (st1 !! user_id_of u)));
    [reflexivity|].
  by rewrite log_request_store.
Qed.

(** The three ways a call can go. *)
Lemma inlet_enforced_or_not {Body} (v : Valves) (body : Body) (u : dict)
    (clk : Clock) (st : store) :
  (role_is_user u = true /\ is_exempt v (Some u) = false
   /\ applies_today v clk = true)
  \/ inlet v body (Some u) clk st = (Ok body, st).
Proof.
  destruct (role_is_user u) eqn:Hr;
    [|right; apply inlet_bypass; by left].
  destruct (is_exempt v (Some u)) eqn:He;
    [right; apply inlet_bypass; by right; left|].
  destruct (applies_today v clk) eqn:Ha;
    [by left|right; apply inlet_bypass; by right; right].
Qed.

Lemma prune_requests_fixed (v : Valves) (uid : pyval) (now : Z)
    (st st' : store) :
  prune_requests v uid now st = (Ok tt, st') ->
  prune_requests v uid now st' = (Ok tt, st').
Proof.
  unfold prune_requests. destruct (st !! uid) as [l|] eqn:El.
  - destruct (prune_list v now l) as [l'|] eqn:Ep; [|discriminate].
    intros H; inversion H; subst.
    rewrite lookup_insert_eq, (prune_list_idempotent v _ _ _ Ep).
    by rewrite insert_insert_eq.
  - intros H; inversion H; subst. by rewrite El.
Qed.

(** [prune_list] raises exactly when the sliding limit is set without
    its window and some entry is kept by neither fixed window. *)
Lemma prune_list_raises_iff (v : Valves) (now : Z) (l : list Z) :
  (exists e, prune_list v now l = Raise e)
  <-> sliding_window_limit v <> None /\ sliding_window_minutes v = None
      /\ Exists (fun req => kept_by_fixed_windows v now req = false) l.
Proof.
  assert (Hk : forall req,
    (exists e, keeps v now req = Raise e)
    <-> sliding_window_limit v <> None /\ sliding_window_minutes v = None
        /\ kept_by_fixed_windows v now req = false).
  { intros req. unfold keeps, kept_by_fixed_windows.
    destruct (not_None (requests_per_minute v) && (now - req <? 60));
      [simpl; split; [intros [e ?]; discriminate|intros (_&_&?); discriminate]|].
    destruct (not_None (requests_per_hour v) && (now - req <? 3600));
      [simpl; split; [intros [e ?]; discriminate|intros (_&_&?); discriminate]|].
    simpl. destruct (sliding_window_limit v), (sliding_window_minutes v);
      split; try (intros [e ?]; discriminate); try (intros (?&?&_); done);
      eauto. }
  induction l as [|req l IH]; simpl.
  - split; [intros [e ?]; discriminate|].
    intros (_ & _ & HE). inversion HE.
  - destruct (keeps v now req) as [b|e] eqn:Ek.
    + destruct (prune_list v now l) as [r|e] eqn:Ep.
      * split; [intros [e ?]; discriminate|].
        intros (Hl & Hm & HE). inversion HE; subst.
        -- destruct (proj2 (Hk req)) as [e He]; [done|]. congruence.
        -- destruct (proj2 IH) as [e He]; [done|]. discriminate.
      * split; [|eauto]. intros _.
        destruct (proj1 IH) as (Hl & Hm & HE); [eauto|].
        repeat split; try done. by apply Exists_cons_tl.
    + split; [|eauto]. intros _.
      destruct (proj1 (Hk req)) as (Hl & Hm & HE); [eauto|].
      repeat split; try done. by apply Exists_cons_hd.
Qed.

(** ** What a call touches *)

(** X1.  A call made for a user record reads and writes the list of that
    user's id only: under every other key [self.user_requests] holds
    after the call what it held before, whether the call returns, is
    refused or fails. *)
Theorem inlet_leaves_other_users {Body} (v : Valves) (body : Body)
    (u : dict) (clk : Clock) (st : store) (k : pyval) :
  k <> user_id_of u ->
  snd (inlet v body (Some u) clk st) !! k = st !! k.
Proof.
  intros Hk.
  destruct (inlet_enforced_or_not v body u clk st) as [(Hr & He & Ha) | ->];
    [|reflexivity].
  rewrite (inlet_enforced_run v body u clk st Hr He Ha).
  destruct (prune_requests v (user_id_of u) (time clk) st)
    as [[[]|e] st1] eqn:Ep.
  - destruct (prune_requests_ok v _ _ _ _ Ep) as [_ Hf].
    destruct (over_limit v (time clk) (history st1 (user_id_of u))); simpl.
    + by apply Hf.
    + rewrite lookup_insert_ne by done. by apply Hf.
  - by destruct (prune_requests_raises v _ _ _ _ _ Ep) as (_ & -> & _).
Qed.

Lemma inlet_leaves_other_users_witness :
  PStr "u2" <> user_id_of (plain_user "u1")
  /\ snd (inlet (with_minute 2 no_limits) tt (Some (plain_user "u1"))
            (monday 100) (<[PStr "u2" := [0; 1]]> (one_history "u1" [0])))
       !! PStr "u2"
     = (<[PStr "u2" := [0; 1]]> (one_history "u1" [0])) !! PStr "u2".
Proof.
  assert (H : PStr "u2" <> user_id_of (plain_user "u1"))
    by (vm_compute; discriminate).
  split; [exact H|].
  apply (inlet_leaves_other_users (with_minute 2 no_limits) tt
           (plain_user "u1") (monday 100)).
  exact H.
Defined.

(** X2.  A call that fails with anything but the rejection signal
    ([TypeError], [AttributeError]) has written nothing. *)
Theorem inlet_failure_keeps_store {Body} (v : Valves) (body : Body)
    (user : option dict) (clk : Clock) (st st' : store) (e : exn) :
  inlet v body user clk st = (Raise e, st') ->
  e <> RateLimitExceeded ->
  st' = st.
Proof.
  intros H Hne.
  destruct (inlet_raises v body user clk st st' e H)
    as [(_ & _ & ->)|[(_ & -> & _)|(u & _ & -> & _)]]; done.
Qed.

Lemma inlet_failure_keeps_store_witness :
  let v := with_sliding (Some 5) None no_limits in
  inlet v tt (Some (plain_user "u1")) (monday 1) (one_history "u1" [0])
  = (Raise TypeError, one_history "u1" [0])
  /\ TypeError <> RateLimitExceeded
  /\ one_history "u1" [0] = one_history "u1" [0].
Proof.
  intros v. split; [reflexivity|]. split; [discriminate|].
  apply (inlet_failure_keeps_store v tt (Some (plain_user "u1")) (monday 1)
           (one_history "u1" [0]) (one_history "u1" [0]) TypeError);
    [reflexivity|discriminate].
Defined.

(** X3.  Under enforcement [inlet] fails with [TypeError] exactly when
    [sliding_window_limit] is set, [sliding_window_minutes] is [None], and
    the caller's list holds an entry that neither the per-minute nor the
    per-hour rule keeps. *)
Theorem inlet_type_error_iff {Body} (v : Valves) (body : Body) (u : dict)
    (clk : Clock) (st : store) :
  role_is_user u = true ->
  is_exempt v (Some u) = false ->
  applies_today v clk = true ->
  fst (inlet v body (Some u) clk st) = Raise TypeError
  <-> sliding_window_limit v <> None /\ sliding_window_minutes v = None
      /\ Exists (fun req => kept_by_fixed_windows v (time clk) req = false)
           (history st (user_id_of u)).
Proof.
  intros Hr He Ha. rewrite (inlet_enforced_run v body u clk st Hr He Ha).
  rewrite <- prune_list_raises_iff.
  unfold prune_requests, history at 3.
  destruct (st !! user_id_of u) as [l|] eqn:El; simpl.
  - destruct (prune_list v (time clk) l) as [l'|e] eqn:Ep; simpl.
    + split; [|intros [e ?]; discriminate].
      by destruct (over_limit v _ _).
    + destruct (prune_list_raises v _ _ _ Ep) as [-> _]. split; eauto.
  - split; [|intros [e ?]; discriminate].
    by destruct (over_limit v _ _).
Qed.

Lemma inlet_type_error_iff_witness :
  let v := with_sliding (Some 100) None
             (with_hour 1000 (with_minute 1 no_limits)) in
  role_is_user (plain_user "u1") = true
  /\ is_exempt v (Some (plain_user "u1")) = false
  /\ applies_today v (monday 3600) = true
  /\ (fst (inlet v tt (Some (plain_user "u1")) (monday 3600)
             (one_history "u1" [0; 3550])) = Raise TypeError
      <-> sliding_window_limit v <> None /\ sliding_window_minutes v = None
          /\ Exists (fun req =>
                       kept_by_fixed_windows v (time (monday 3600)) req = false)
               (history (one_history "u1" [0; 3550])
                  (user_id_of (plain_user "u1")))).
Proof.
  intros v. split; [reflexivity|]. split; [reflexivity|].
  split; [reflexivity|].
  apply (inlet_type_error_iff v tt (plain_user "u1") (monday 3600)
           (one_history "u1" [0; 3550])); reflexivity.
Defined.

(** The state of the witness is reached by two requests that are let
    through; the third fails. *)
Example type_error_after_an_hour :
  calls (with_sliding (Some 100) None
           (with_hour 1000 (with_minute 1 no_limits)))
    (plain_user "u1") [monday 0; monday 3550; monday 3600] ∅
  = ([Ok tt; Ok tt; Raise TypeError], one_history "u1" [0; 3550]).
Proof. vm_compute. reflexivity. Qed.

(** ** Admission *)

(** X4.  A request that is let through under enforcement is recorded
    last: the caller's list after the call is its list before the call
    without the entries outside every active window at the pruning
    instant, followed by the instant that [log_request] reads. *)
Theorem admitted_recorded_last {Body} (v : Valves) (body b : Body)
    (u : dict) (clk : Clock) (rd : Reads) (st st' : store) :
  role_is_user u = true ->
  is_exempt v (Some u) = false ->
  applies_today v clk = true ->
  inlet_reads v body (Some u) clk rd st = (Ok b, st') ->
  history st' (user_id_of u)
  = (List.filter (in_active_window v (time clk)) (history st (user_id_of u))
     ++ [at_log rd])%list.
Proof.
  intros Hr He Ha.
  rewrite (inlet_reads_enforced_run v body u clk rd st Hr He Ha).
  destruct (prune_requests v (user_id_of u) (time clk) st)
    as [[[]|e] st1] eqn:Ep; [|discriminate].
  destruct (prune_requests_ok v _ _ _ _ Ep) as [Hh _].
  destruct (over_limit_reads v rd (history st1 (user_id_of u)));
    [discriminate|].
  intros H; inversion H; subst.
  unfold history at 1. rewrite lookup_insert_eq. simpl. by rewrite Hh.
Qed.

Lemma admitted_recorded_last_witness :
  let v := with_minute 1 no_limits in
  let rd := {| at_minute := fun _ => 60; at_hour := fun _ => 60;
               at_log := 61 |} in
  role_is_user (plain_user "u1") = true
  /\ is_exempt v (Some (plain_user "u1")) = false
  /\ applies_today v (monday 59) = true
  /\ inlet_reads v tt (Some (plain_user "u1")) (monday 59) rd
       (one_history "u1" [-5; 0])
     = (Ok tt, one_history "u1" [0; 61])
  /\ history (one_history "u1" [0; 61]) (user_id_of (plain_user "u1"))
     = (List.filter (in_active_window v (time (monday 59)))
          (history (one_history "u1" [-5; 0])
             (user_id_of (plain_user "u1")))
        ++ [at_log rd])%list.
Proof.
  intros v rd. split; [reflexivity|]. split; [reflexivity|].
  split; [reflexivity|]. split; [reflexivity|].
  apply (admitted_recorded_last v tt tt (plain_user "u1") (monday 59) rd
           (one_history "u1" [-5; 0])); reflexivity.
Defined.

(** X18.  After a request is let through under enforcement, the
    caller's list, the new entry included, holds no more entries than the
    limit inside the window of each rule that is set, at every instant
    [T] that the readings taken for that rule's count do not exceed: a
    limit of [N] is never exceeded by one. *)
Theorem admitted_within_limits {Body} (v : Valves) (body : Body) (u : dict)
    (clk : Clock) (rd : Reads) (st st' : store) :
  role_is_user u = true ->
  is_exempt v (Some u) = false ->
  applies_today v clk = true ->
  inlet_reads v body (Some u) clk rd st = (Ok body, st') ->
  (forall N T, requests_per_minute v = Some N ->
     (forall i, at_minute rd i <= T) ->
     count_within 60 T (history st' (user_id_of u)) <= N)
  /\ (forall N T, requests_per_hour v = Some N ->
        (forall i, at_hour rd i <= T) ->
        count_within 3600 T (history st' (user_id_of u)) <= N)
  /\ (forall N w T, sliding_window_limit v = Some N ->
        count_within w T (history st' (user_id_of u)) <= N).
Proof.
  intros Hr He Ha.
  rewrite (inlet_reads_enforced_run v body u clk rd st Hr He Ha).
  destruct (prune_requests v (user_id_of u) (time clk) st)
    as [[[]|e] st1] eqn:Ep; [|discriminate].
  destruct (over_limit_reads v rd (history st1 (user_id_of u))) eqn:Eo;
    [discriminate|].
  intros H; inversion H; subst st'; clear H.
  unfold history at 1 3 5. rewrite lookup_insert_eq. simpl.
  destruct (over_limit_reads_false v _ _ Eo) as (Hm & Hh & Hs).
  repeat split.
  - intros N T HN HT. specialize (Hm N HN).
    pose proof (count_within_app_one 60 T (history st1 (user_id_of u))
                  (at_log rd)).
    pose proof (count_reads_ge 60 (at_minute rd) T 0
                  (history st1 (user_id_of u)) HT). lia.
  - intros N T HN HT. specialize (Hh N HN).
    pose proof (count_within_app_one 3600 T (history st1 (user_id_of u))
                  (at_log rd)).
    pose proof (count_reads_ge 3600 (at_hour rd) T 0
                  (history st1 (user_id_of u)) HT). lia.
  - intros N w T HN. specialize (Hs N HN).
    pose proof (count_within_le_length w T
                  (history st1 (user_id_of u) ++ [at_log rd])) as Hc.
    rewrite length_app in Hc. simpl in Hc. lia.
Qed.

Lemma admitted_within_limits_witness :
  let v := with_hour 1000 (with_minute 1 no_limits) in
  let rd := {| at_minute := fun _ => 60; at_hour := fun _ => 60;
               at_log := 61 |} in
  let u := plain_user "u1" in
  role_is_user u = true
  /\ is_exempt v (Some u) = false
  /\ applies_today v (monday 59) = true
  /\ inlet_reads v tt (Some u) (monday 59) rd (one_history "u1" [0])
     = (Ok tt, one_history "u1" [0; 61])
  /\ ((forall N T, requests_per_minute v = Some N ->
         (forall i, at_minute rd i <= T) ->
         count_within 60 T (history (one_history "u1" [0; 61])
                              (user_id_of u)) <= N)
      /\ (forall N T, requests_per_hour v = Some N ->
            (forall i, at_hour rd i <= T) ->
            count_within 3600 T (history (one_history "u1" [0; 61])
                                   (user_id_of u)) <= N)
      /\ (forall N w T, sliding_window_limit v = Some N ->
            count_within w T (history (one_history "u1" [0; 61])
                                (user_id_of u)) <= N)).
Proof.
  intros v rd u. split; [reflexivity|]. split; [reflexivity|].
  split; [reflexivity|]. split; [reflexivity|].
  apply (admitted_within_limits v tt u (monday 59) rd
           (one_history "u1" [0])); reflexivity.
Defined.

(** X5.  A refusal is stable at its instant: the same call repeated at
    the same clock on the history the refusal left is refused again and
    leaves that history as it is. *)
Theorem rejection_repeats {Body} (v : Valves) (body : Body)
    (user : option dict) (clk : Clock) (st st' : store) :
  inlet v body user clk st = (Raise RateLimitExceeded, st') ->
  inlet v body user clk st' = (Raise RateLimitExceeded, st').
Proof.
  destruct user as [u|]; [|discriminate].
  destruct (inlet_enforced_or_not v body u clk st) as [(Hr & He & Ha) | ->];
    [|discriminate].
  rewrite !(inlet_enforced_run v body u clk _ Hr He Ha).
  destruct (prune_requests v (user_id_of u) (time clk) st)
    as [[[]|e] st1] eqn:Ep.
  - destruct (over_limit v (time clk) (history st1 (user_id_of u))) eqn:Eo;
      [|discriminate].
    intros H; inversion H; subst.
    by rewrite (prune_requests_fixed v _ _ _ _ Ep), Eo.
  - destruct (prune_requests_raises v _ _ _ _ _ Ep) as (-> & _).
    discriminate.
Qed.

Lemma rejection_repeats_witness :
  let v := with_hour 1000 (with_minute 1 no_limits) in
  inlet v tt (Some (plain_user "u1")) (monday 3600)
    (one_history "u1" [0; 3590])
  = (Raise RateLimitExceeded, one_history "u1" [3590])
  /\ inlet v tt (Some (plain_user "u1")) (monday 3600)
       (one_history "u1" [3590])
     = (Raise RateLimitExceeded, one_history "u1" [3590]).
Proof.
  intros v. split; [reflexivity|].
  apply (rejection_repeats v tt (Some (plain_user "u1")) (monday 3600)
           (one_history "u1" [0; 3590])).
  reflexivity.
Defined.

Lemma count_within_nonneg (w now : Z) (l : list Z) : 0 <= count_within w now l.
Proof. unfold count_within. lia. Qed.

(** X6.  A limit that is zero or negative refuses every request under
    enforcement, the first one included (the window length being known). *)
Theorem nonpositive_limit_rejects {Body} (v : Valves) (body : Body)
    (u : dict) (clk : Clock) (st : store) (N : Z) :
  role_is_user u = true ->
  is_exempt v (Some u) = false ->
  applies_today v clk = true ->
  window_length_known v ->
  N <= 0 ->
  requests_per_minute v = Some N \/ requests_per_hour v = Some N
  \/ sliding_window_limit v = Some N ->
  fst (inlet v body (Some u) clk st) = Raise RateLimitExceeded.
Proof.
  intros Hr He Ha Hk HN Hrule.
  rewrite (inlet_enforced_run v body u clk st Hr He Ha).
  destruct (prune_requests_total v (user_id_of u) (time clk) st Hk)
    as [st1 ->].
  assert (Ho : over_limit v (time clk) (history st1 (user_id_of u)) = true).
  { destruct Hrule as [Hl|[Hl|Hl]].
    - apply (over_limit_minute v _ N); [done|].
      pose proof (count_within_nonneg 60 (time clk)
                    (history st1 (user_id_of u))). lia.
    - apply (over_limit_hour v _ N); [done|].
      pose proof (count_within_nonneg 3600 (time clk)
                    (history st1 (user_id_of u))). lia.
    - apply (over_limit_sliding v _ N); [done|lia]. }
  by rewrite Ho.
Qed.

Lemma nonpositive_limit_rejects_witness :
  let v := with_hour 0 (with_minute 10 no_limits) in
  role_is_user (plain_user "u1") = true
  /\ is_exempt v (Some (plain_user "u1")) = false
  /\ applies_today v (monday 0) = true
  /\ window_length_known v
  /\ 0 <= 0
  /\ (requests_per_minute v = Some 0 \/ requests_per_hour v = Some 0
      \/ sliding_window_limit v = Some 0)
  /\ fst (inlet v tt (Some (plain_user "u1")) (monday 0) ∅)
     = Raise RateLimitExceeded.
Proof.
  intros v.
  assert (Hk : window_length_known v) by (left; reflexivity).
  split; [reflexivity|]. split; [reflexivity|]. split; [reflexivity|].
  split; [exact Hk|]. split; [lia|].
  split; [right; left; reflexivity|].
  apply (nonpositive_limit_rejects v tt (plain_user "u1") (monday 0) ∅ 0);
    [reflexivity|reflexivity|reflexivity|exact Hk|lia|].
  right; left; reflexivity.
Defined.

Lemma filter_none {A} (f : A -> bool) (l : list A) :
  (forall a, f a = false) -> List.filter f l = [].
Proof.
  intros Hf. induction l as [|a l IH]; simpl; [reflexivity|].
  by rewrite Hf.
Qed.

(** X7.  With no limit set at all, every request under enforcement is
    let through, and pruning keeps nothing: after the call the caller's
    list holds the instant of the call and no other. *)
Theorem no_rule_keeps_latest_only {Body} (v : Valves) (body : Body)
    (u : dict) (clk : Clock) (st : store) :
  role_is_user u = true ->
  is_exempt v (Some u) = false ->
  applies_today v clk = true ->
  requests_per_minute v = None ->
  requests_per_hour v = None ->
  sliding_window_limit v = None ->
  inlet v body (Some u) clk st
  = (Ok body, <[user_id_of u := [time clk]]> st).
Proof.
  intros Hr He Ha Hm Hh Hs.
  rewrite (inlet_enforced_run v body u clk st Hr He Ha).
  assert (Hk : window_length_known v) by (by left).
  assert (Hw : forall req, in_active_window v (time clk) req = false).
  { intros req. unfold in_active_window. by rewrite Hm, Hh, Hs. }
  assert (Ho : forall l, over_limit v (time clk) l = false).
  { intros l. unfold over_limit. by rewrite Hm, Hh, Hs. }
  unfold prune_requests. destruct (st !! user_id_of u) as [l|] eqn:El.
  - rewrite (prune_list_total v _ _ Hk), (filter_none _ _ Hw), Ho.
    unfold history. rewrite lookup_insert_eq. simpl.
    by rewrite insert_insert_eq.
  - rewrite Ho. unfold history. by rewrite El.
Qed.

Lemma no_rule_keeps_latest_only_witness :
  role_is_user (plain_user "u1") = true
  /\ is_exempt no_limits (Some (plain_user "u1")) = false
  /\ applies_today no_limits (monday 7) = true
  /\ requests_per_minute no_limits = None
  /\ requests_per_hour no_limits = None
  /\ sliding_window_limit no_limits = None
  /\ inlet no_limits tt (Some (plain_user "u1")) (monday 7)
       (one_history "u1" [5; 6])
     = (Ok tt, <[user_id_of (plain_user "u1") := [time (monday 7)]]>
                 (one_history "u1" [5; 6])).
Proof.
  split; [reflexivity|]. split; [reflexivity|]. split; [reflexivity|].
  split; [reflexivity|]. split; [reflexivity|]. split; [reflexivity|].
  apply (no_rule_keeps_latest_only no_limits tt (plain_user "u1") (monday 7)
           (one_history "u1" [5; 6])); reflexivity.
Defined.

(** X8.  The first request of a user id that has no list yet is let
    through as soon as every limit that is set is at least one, also when
    the sliding-window pair is half set; the list of that id is then the
    instant of the call. *)
Theorem first_request_admitted {Body} (v : Valves) (body : Body)
    (u : dict) (clk : Clock) (st : store) :
  role_is_user u = true ->
  is_exempt v (Some u) = false ->
  applies_today v clk = true ->
  st !! user_id_of u = None ->
  (forall N, requests_per_minute v = Some N -> 1 <= N) ->
  (forall N, requests_per_hour v = Some N -> 1 <= N) ->
  (forall N, sliding_window_limit v = Some N -> 1 <= N) ->
  inlet v body (Some u) clk st
  = (Ok body, <[user_id_of u := [time clk]]> st).
Proof.
  intros Hr He Ha Hn Hm Hh Hs.
  rewrite (inlet_enforced_run v body u clk st Hr He Ha).
  unfold prune_requests. rewrite Hn. unfold history. rewrite Hn. simpl.
  assert (Ho : over_limit v (time clk) [] = false).
  { unfold over_limit, count_within. cbn [List.filter length].
    change (Z.of_nat 0) with 0.
    destruct (requests_per_minute v) as [a|];
      [specialize (Hm a eq_refl); replace (a <=? 0) with false by lia|];
    (destruct (requests_per_hour v) as [b|];
      [specialize (Hh b eq_refl); replace (b <=? 0) with false by lia|]);
    (destruct (sliding_window_limit v) as [c|];
      [specialize (Hs c eq_refl); replace (c <=? 0) with false by lia|]);
    reflexivity. }
  by rewrite Ho.
Qed.

Lemma first_request_admitted_witness :
  let v := with_sliding (Some 5) None (with_minute 1 no_limits) in
  role_is_user (plain_user "u1") = true
  /\ is_exempt v (Some (plain_user "u1")) = false
  /\ applies_today v (monday 9) = true
  /\ (∅ : store) !! user_id_of (plain_user "u1") = None
  /\ inlet v tt (Some (plain_user "u1")) (monday 9) ∅
     = (Ok tt, <[user_id_of (plain_user "u1") := [time (monday 9)]]> ∅).
Proof.
  intros v. split; [reflexivity|]. split; [reflexivity|].
  split; [reflexivity|]. split; [reflexivity|].
  apply (first_request_admitted v tt (plain_user "u1") (monday 9) ∅);
    try reflexivity;
    intros N HN; vm_compute in HN; inversion HN; lia.
Defined.

Lemma count_within_app (w now : Z) (l1 l2 : list Z) :
  count_within w now (l1 ++ l2)
  = count_within w now l1 + count_within w now l2.
Proof. unfold count_within. rewrite List.filter_app, length_app. lia. Qed.

(** X9.  Users without an ["id"] share the bucket ["default_user"]:
    with one request a minute and the window length known, once such a
    user has been let through, the request of any other such user is
    refused as long as none of its pruning and counting readings is 60
    seconds or more after the instant recorded for the first. *)
Theorem default_bucket_is_shared {Body} (v : Valves) (body : Body)
    (u1 u2 : dict) (clk1 clk2 : Clock) (rd1 rd2 : Reads) (st st1 : store)
    (T : Z) :
  u1 !! "id" = None -> u2 !! "id" = None ->
  role_is_user u1 = true -> is_exempt v (Some u1) = false ->
  applies_today v clk1 = true ->
  role_is_user u2 = true -> is_exempt v (Some u2) = false ->
  applies_today v clk2 = true ->
  window_length_known v ->
  requests_per_minute v = Some 1 ->
  inlet_reads v body (Some u1) clk1 rd1 st = (Ok body, st1) ->
  reads_by clk2 rd2 T ->
  T - at_log rd1 < 60 ->
  fst (inlet_reads v body (Some u2) clk2 rd2 st1) = Raise RateLimitExceeded.
Proof.
  intros Hi1 Hi2 Hr1 He1 Ha1 Hr2 He2 Ha2 Hk Hm H1 (Hp & Hmi & _) Hlt.
  rewrite (inlet_reads_enforced_run v body u1 clk1 rd1 st Hr1 He1 Ha1) in H1.
  rewrite (inlet_reads_enforced_run v body u2 clk2 rd2 st1 Hr2 He2 Ha2).
  rewrite (user_id_of_missing u1 Hi1) in H1.
  rewrite (user_id_of_missing u2 Hi2).
  set (uid := PStr "default_user") in *.
  destruct (prune_requests v uid (time clk1) st) as [[[]|e] s] eqn:Ep;
    [|discriminate].
  destruct (over_limit_reads v rd1 (history s uid)); [discriminate|].
  inversion H1; subst st1; clear H1.
  destruct (prune_requests_total v uid (time clk2)
              (<[uid := (history s uid ++ [at_log rd1])%list]> s) Hk)
    as [s2 Hp2].
  rewrite Hp2. destruct (prune_requests_ok v _ _ _ _ Hp2) as [Hh2 _].
  assert (Ho : over_limit_reads v rd2 (history s2 uid) = true).
  { apply (over_limit_reads_minute v _ 1); [exact Hm|]. rewrite Hh2.
    etrans; [|apply (count_reads_ge 60 (at_minute rd2) T 0); exact Hmi].
    rewrite count_within_filter
      by (intros req ?; apply in_active_window_minute; [congruence|lia]).
    unfold history at 1. rewrite lookup_insert_eq. simpl.
    rewrite count_within_app.
    pose proof (count_within_nonneg 60 T (history s uid)).
    unfold count_within at 2. simpl.
    replace (T - at_log rd1 <? 60) with true by lia. simpl. lia. }
  by rewrite Ho.
Qed.

Lemma default_bucket_is_shared_witness :
  let v := with_minute 1 no_limits in
  let anna : dict := <["username" := PStr "anna"]> (<["role" := PStr "user"]> ∅) in
  let bert : dict := <["email" := PStr "bert@example.org"]> (<["role" := PStr "user"]> ∅) in
  let rd1 := {| at_minute := fun _ => 1; at_hour := fun _ => 1; at_log := 2 |} in
  let rd2 := {| at_minute := fun _ => 31; at_hour := fun _ => 31; at_log := 32 |} in
  anna !! "id" = None /\ bert !! "id" = None
  /\ role_is_user anna = true /\ is_exempt v (Some anna) = false
  /\ applies_today v (monday 0) = true
  /\ role_is_user bert = true /\ is_exempt v (Some bert) = false
  /\ applies_today v (monday 30) = true
  /\ window_length_known v
  /\ requests_per_minute v = Some 1
  /\ inlet_reads v tt (Some anna) (monday 0) rd1 ∅
     = (Ok tt, one_history "default_user" [2])
  /\ reads_by (monday 30) rd2 31
  /\ 31 - at_log rd1 < 60
  /\ fst (inlet_reads v tt (Some bert) (monday 30) rd2
            (one_history "default_user" [2]))
     = Raise RateLimitExceeded.
Proof.
  intros v anna bert rd1 rd2.
  assert (Hk : window_length_known v) by (left; reflexivity).
  assert (Hb : reads_by (monday 30) rd2 31).
  { unfold reads_by. simpl. repeat split; intros; lia. }
  split; [reflexivity|]. split; [reflexivity|]. split; [reflexivity|].
  split; [reflexivity|]. split; [reflexivity|]. split; [reflexivity|].
  split; [reflexivity|]. split; [reflexivity|]. split; [exact Hk|].
  split; [reflexivity|]. split; [reflexivity|]. split; [exact Hb|].
  split; [simpl; lia|].
  apply (default_bucket_is_shared v tt anna bert (monday 0) (monday 30)
           rd1 rd2 ∅ (one_history "default_user" [2]) 31);
    try reflexivity; try exact Hk; exact Hb.
Defined.

(** ** Pruning, seen from outside *)



(** ** Sequences of calls *)

(** The history after one call, whoever calls and however it ends. *)
Lemma inlet_state_cases {Body} (v : Valves) (body : Body)
    (user : option dict) (clk : Clock) (st : store) :
  snd (inlet v body user clk st) = st
  \/ exists u st1,
       user = Some u
       /\ prune_requests v (user_id_of u) (time clk) st = (Ok tt, st1)
       /\ ((over_limit v (time clk) (history st1 (user_id_of u)) = true
            /\ snd (inlet v body user clk st) = st1)
           \/ (over_limit v (time clk) (history st1 (user_id_of u)) = false
               /\ snd (inlet v body user clk st)
                  = <[user_id_of u :=
                        (history st1 (user_id_of u) ++ [time clk])%list]> st1)).
Proof.
  destruct user as [u|]; [|by left].
  destruct (inlet_enforced_or_not v body u clk st) as [(Hr & He & Ha) | ->];
    [|by left].
  rewrite (inlet_enforced_run v body u clk st Hr He Ha).
  destruct (prune_requests v (user_id_of u) (time clk) st)
    as [[[]|e] st1] eqn:Ep.
  - right. exists u, st1. split; [reflexivity|]. split; [exact Ep|].
    destruct (over_limit v (time clk) (history st1 (user_id_of u)));
      [left|right]; by split.
  - left. by destruct (prune_requests_raises v _ _ _ _ _ Ep) as (_ & -> & _).
Qed.

Lemma history_insert_eq (st : store) (k : pyval) (l : list Z) :
  history (<[k := l]> st) k = l.
Proof. unfold history. by rewrite lookup_insert_eq. Qed.

Lemma history_insert_ne (st : store) (k k' : pyval) (l : list Z) :
  k <> k' -> history (<[k := l]> st) k' = history st k'.
Proof. intros H. unfold history. by rewrite lookup_insert_ne. Qed.

Lemma history_frame (st st' : store) (k : pyval) :
  st' !! k = st !! k -> history st' k = history st k.
Proof. unfold history. by intros ->. Qed.

Lemma inlet_step_sublist {Body} (v : Valves) (body : Body)
    (user : option dict) (clk : Clock) (st : store) (k : pyval) :
  sublist (history (snd (inlet v body user clk st)) k)
          (history st k ++ [time clk])%list.
Proof.
  destruct (inlet_state_cases v body user clk st)
    as [-> | (u & st1 & _ & Hp & Hc)].
  { by apply sublist_inserts_r. }
  destruct (prune_requests_ok v _ _ _ _ Hp) as [Hh Hf].
  destruct (decide (user_id_of u = k)) as [<-|Hne].
  - destruct Hc as [[_ ->]|[_ ->]].
    + rewrite Hh. apply sublist_inserts_r, filter_sublist.
    + rewrite history_insert_eq, Hh.
      apply sublist_app; [apply filter_sublist|done].
  - assert (Hk : history st1 k = history st k)
      by (apply history_frame, Hf; congruence).
    destruct Hc as [[_ ->]|[_ ->]].
    + rewrite Hk. by apply sublist_inserts_r.
    + rewrite history_insert_ne, Hk by done. by apply sublist_inserts_r.
Qed.

(** X11.  Whatever the users and the outcomes of a sequence of calls,
    the list stored under every user id is a subsequence of what it was
    at the start followed by the instants of the calls, in the order of
    the calls: entries are only ever removed or appended, and an appended
    entry is the instant of a call. *)
Theorem serve_history_from_calls (v : Valves)
    (reqs : list (option dict * Clock)) (st : store) (k : pyval) :
  sublist (history (snd (serve v reqs st)) k)
          (history st k ++ instants reqs)%list.
Proof.
  revert st. induction reqs as [|[user clk] reqs IH]; intros st.
  - simpl. by rewrite app_nil_r.
  - cbn [serve instants map snd].
    pose proof (inlet_step_sublist v tt user clk st k) as Hs.
    destruct (inlet v tt user clk st) as [r st1]. simpl in Hs.
    specialize (IH st1).
    destruct (serve v reqs st1) as [rs st2]. simpl in *.
    etrans; [exact IH|].
    change (time clk :: map (fun r0 => time (snd r0)) reqs)
      with ([time clk] ++ instants reqs)%list.
    rewrite app_assoc. by apply sublist_app.
Qed.

Lemma inlet_step_bounded {Body} (v : Valves) (body : Body)
    (user : option dict) (clk : Clock) (st : store) (L : Z) :
  sliding_window_limit v = Some L ->
  (forall k, Z.of_nat (length (history st k)) <= Z.max 0 L) ->
  forall k,
    Z.of_nat (length (history (snd (inlet v body user clk st)) k))
    <= Z.max 0 L.
Proof.
  intros HL Hb k.
  destruct (inlet_state_cases v body user clk st)
    as [-> | (u & st1 & _ & Hp & Hc)]; [apply Hb|].
  destruct (prune_requests_ok v _ _ _ _ Hp) as [Hh Hf].
  assert (H1 : forall k', Z.of_nat (length (history st1 k')) <= Z.max 0 L).
  { intros k'. destruct (decide (k' = user_id_of u)) as [->|Hne].
    - rewrite Hh.
      pose proof (filter_length_le (in_active_window v (time clk))
                    (history st (user_id_of u))).
      specialize (Hb (user_id_of u)). lia.
    - rewrite (history_frame st st1 k') by (by apply Hf). apply Hb. }
  destruct Hc as [[_ ->]|[Ho ->]]; [apply H1|].
  destruct (decide (user_id_of u = k)) as [<-|Hne].
  - rewrite history_insert_eq, length_app. simpl.
    destruct (over_limit_false v _ _ Ho) as (_ & _ & Hs).
    specialize (Hs L HL). lia.
  - rewrite history_insert_ne by done. apply H1.
Qed.

(** X12.  With [sliding_window_limit] set to [L], no user's list ever
    grows beyond [L] entries (beyond none when [L] is negative): if every
    list is within that bound before a sequence of calls, every list is
    within it after, whoever calls and whatever the instants are. *)
Theorem serve_lists_bounded (v : Valves)
    (reqs : list (option dict * Clock)) (st : store) (L : Z) :
  sliding_window_limit v = Some L ->
  (forall k, Z.of_nat (length (history st k)) <= Z.max 0 L) ->
  forall k,
    Z.of_nat (length (history (snd (serve v reqs st)) k)) <= Z.max 0 L.
Proof.
  intros HL. revert st.
  induction reqs as [|[user clk] reqs IH]; intros st Hb k; [apply Hb|].
  cbn [serve].
  pose proof (inlet_step_bounded v tt user clk st L HL Hb) as Hs.
  destruct (inlet v tt user clk st) as [r st1]. simpl in Hs.
  specialize (IH st1 Hs k).
  destruct (serve v reqs st1) as [rs st2]. exact IH.
Qed.

Lemma serve_lists_bounded_witness :
  let v := with_sliding (Some 2) (Some 1) no_limits in
  let reqs := [(Some (plain_user "u1"), monday 0);
               (Some (plain_user "u1"), monday 1);
               (Some (plain_user "u2"), monday 1);
               (Some (plain_user "u1"), monday 2);
               (Some (plain_user "u1"), monday 70)] in
  sliding_window_limit v = Some 2
  /\ (forall k, Z.of_nat (length (history (∅ : store) k)) <= Z.max 0 2)
  /\ forall k,
       Z.of_nat (length (history (snd (serve v reqs ∅)) k)) <= Z.max 0 2.
Proof.
  intros v reqs.
  assert (H0 : forall k, Z.of_nat (length (history (∅ : store) k))
                         <= Z.max 0 2).
  { intros k. unfold history. rewrite lookup_empty. simpl. lia. }
  split; [reflexivity|]. split; [exact H0|].
  apply (serve_lists_bounded v reqs ∅ 2); [reflexivity|exact H0].
Defined.

(** ** A burst inside one minute *)

Lemma filter_all {A} (f : A -> bool) (l : list A) :
  Forall (fun a => f a = true) l -> List.filter f l = l.
Proof.
  induction 1 as [|a l Ha _ IH]; simpl; [reflexivity|]. by rewrite Ha, IH.
Qed.

Lemma calls_reads_app (v : Valves) (u : dict) (a b : list (Clock * Reads))
    (st : store) :
  calls_reads v u (a ++ b) st
  = (fst (calls_reads v u a st)
       ++ fst (calls_reads v u b (snd (calls_reads v u a st))),
     snd (calls_reads v u b (snd (calls_reads v u a st))))%list.
Proof.
  revert st. induction a as [|[c rd] a IH]; intros st.
  - simpl. by destruct (calls_reads v u b st).
  - change (((c, rd) :: a) ++ b)%list with ((c, rd) :: (a ++ b))%list.
    cbn [calls_reads].
    destruct (inlet_reads v () (Some u) c rd st) as [r st1].
    rewrite (IH st1).
    destruct (calls_reads v u a st1) as [ra sa]. cbn [fst snd].
    by destruct (calls_reads v u b sa).
Qed.

(** When every entry is inside the window at every reading, the sum
    counts them all. *)
Lemma count_reads_all (w : Z) (reads : nat -> Z) (i : nat) (l : list Z) :
  (forall j req, In req l -> reads j - req < w) ->
  count_reads w reads i l = Z.of_nat (length l).
Proof.
  revert i. induction l as [|req l IH]; intros i H; [reflexivity|].
  cbn [count_reads length].
  rewrite IH by (intros j r Hr; apply H; by right).
  replace (reads i - req <? w) with true
    by (symmetry; apply Z.ltb_lt, H; by left).
  lia.
Qed.

Section Burst.

Variables (v : Valves) (u : dict) (n : nat) (t0 : Z).

Hypothesis per_minute : requests_per_minute v = Some (Z.of_nat n).
Hypothesis no_hour : requests_per_hour v = None.
Hypothesis no_sliding : sliding_window_limit v = None.
Hypothesis role_user : role_is_user u = true.
Hypothesis not_exempt : is_exempt v (Some u) = false.

(** One call whose readings and whose stored entries all lie in the
    minute that starts at [t0]. *)
Lemma burst_step (st : store) (c : Clock * Reads) :
  Forall (fun t => t0 <= t < t0 + 60) (history st (user_id_of u)) ->
  applies_today v (fst c) = true ->
  reads_in_minute t0 c ->
  ((length (history st (user_id_of u)) < n)%nat
   /\ fst (inlet_reads v tt (Some u) (fst c) (snd c) st) = Ok tt
   /\ history (snd (inlet_reads v tt (Some u) (fst c) (snd c) st))
        (user_id_of u)
      = (history st (user_id_of u) ++ [at_log (snd c)])%list)
  \/ ((n <= length (history st (user_id_of u)))%nat
      /\ fst (inlet_reads v tt (Some u) (fst c) (snd c) st)
         = Raise RateLimitExceeded
      /\ history (snd (inlet_reads v tt (Some u) (fst c) (snd c) st))
           (user_id_of u)
         = history st (user_id_of u)).
Proof.
  intros Hin Ha (Hc & Hm & _).
  assert (Hk : window_length_known v) by (by left).
  rewrite (inlet_reads_enforced_run v tt u (fst c) (snd c) st
             role_user not_exempt Ha).
  destruct (prune_requests_total v (user_id_of u) (time (fst c)) st Hk)
    as [st1 Hp].
  rewrite Hp. destruct (prune_requests_ok v _ _ _ _ Hp) as [Hh _].
  rewrite filter_all in Hh.
  2:{ eapply Forall_impl; [exact Hin|]. intros t Ht. cbv beta in Ht.
      apply in_active_window_minute; [congruence|lia]. }
  assert (Ho : over_limit_reads v (snd c) (history st1 (user_id_of u))
               = (Z.of_nat n <=? Z.of_nat (length (history st (user_id_of u))))).
  { unfold over_limit_reads.
    rewrite per_minute, no_hour, no_sliding, Hh, count_reads_all.
    - by destruct (_ <=? _).
    - intros j req Hreq. specialize (Hm j).
      pose proof (proj1 (List.Forall_forall _ _) Hin req Hreq) as Hr.
      cbv beta in Hr. lia. }
  rewrite Ho.
  destruct (Z.leb_spec (Z.of_nat n)
              (Z.of_nat (length (history st (user_id_of u))))).
  - right. simpl. split; [lia|]. by split.
  - left. simpl. split; [lia|]. split; [reflexivity|].
    by rewrite history_insert_eq, Hh.
Qed.

Lemma burst_admits (clks : list (Clock * Reads)) (st : store) :
  Forall (fun t => t0 <= t < t0 + 60) (history st (user_id_of u)) ->
  Forall (fun c => applies_today v (fst c) = true
                   /\ reads_in_minute t0 c) clks ->
  (length (history st (user_id_of u)) + length clks <= n)%nat ->
  fst (calls_reads v u clks st) = map (fun _ => Ok tt) clks
  /\ history (snd (calls_reads v u clks st)) (user_id_of u)
     = (history st (user_id_of u)
        ++ map (fun c => at_log (snd c)) clks)%list.
Proof.
  revert st. induction clks as [|c clks IH]; intros st Hh Hc Hn.
  - simpl. by rewrite app_nil_r.
  - inversion Hc as [|? ? [Ha1 Hc1] Hc2]; subst. simpl in Hn.
    destruct (burst_step st c Hh Ha1 Hc1) as [(_ & Hr & Hs)|(Hge & _)];
      [|lia].
    destruct c as [clk rd]. cbn [calls_reads map fst snd] in *.
    destruct (inlet_reads v tt (Some u) clk rd st) as [r st1].
    simpl in Hr, Hs.
    destruct (IH st1) as [Hf Hl].
    + rewrite Hs. apply Forall_app. split; [exact Hh|].
      constructor; [|constructor]. by destruct Hc1 as (_ & _ & ?).
    + exact Hc2.
    + rewrite Hs, length_app. simpl. lia.
    + destruct (calls_reads v u clks st1) as [rs st2]. simpl in *.
      rewrite Hr, Hf, Hl, Hs, <- app_assoc. done.
Qed.

Lemma burst_refuses (clks : list (Clock * Reads)) (st : store) :
  Forall (fun t => t0 <= t < t0 + 60) (history st (user_id_of u)) ->
  Forall (fun c => applies_today v (fst c) = true
                   /\ reads_in_minute t0 c) clks ->
  (n <= length (history st (user_id_of u)))%nat ->
  fst (calls_reads v u clks st)
  = map (fun _ => Raise RateLimitExceeded) clks
  /\ history (snd (calls_reads v u clks st)) (user_id_of u)
     = history st (user_id_of u).
Proof.
  revert st. induction clks as [|c clks IH]; intros st Hh Hc Hn.
  - done.
  - inversion Hc as [|? ? [Ha1 Hc1] Hc2]; subst.
    destruct (burst_step st c Hh Ha1 Hc1) as [(Hlt & _)|(_ & Hr & Hs)];
      [lia|].
    destruct c as [clk rd]. cbn [calls_reads map fst snd] in *.
    destruct (inlet_reads v tt (Some u) clk rd st) as [r st1].
    simpl in Hr, Hs.
    destruct (IH st1) as [Hf Hl]; [by rewrite Hs|exact Hc2|by rewrite Hs|].
    destruct (calls_reads v u clks st1) as [rs st2]. simpl in *.
    by rewrite Hr, Hf, Hl, Hs.
Qed.

(** X13.  With only the per-minute rule set, to [n], a user under
    enforcement who starts with an empty list and makes any number of
    calls, all of whose clock readings lie inside one span of 60
    seconds, is let through exactly [n] times: the first [n] calls
    return, every later one is refused, and the list ends as the instants
    recorded for the first [n] calls. *)
Theorem burst_admits_exactly_n (first later : list (Clock * Reads))
    (st : store) :
  history st (user_id_of u) = [] ->
  length first = n ->
  Forall (fun c => applies_today v (fst c) = true
                   /\ reads_in_minute t0 c) (first ++ later) ->
  fst (calls_reads v u (first ++ later) st)
  = (map (fun _ => Ok tt) first
     ++ map (fun _ => Raise RateLimitExceeded) later)%list
  /\ history (snd (calls_reads v u (first ++ later) st)) (user_id_of u)
     = map (fun c => at_log (snd c)) first.
Proof.
  intros H0 Hlen Hall. apply Forall_app in Hall as [Hf Hl].
  rewrite calls_reads_app. simpl.
  destruct (burst_admits first st) as [Ha Hh];
    [by rewrite H0|exact Hf|rewrite H0; simpl; lia|].
  rewrite H0 in Hh. simpl in Hh.
  destruct (burst_refuses later (snd (calls_reads v u first st)))
    as [Hr Hk].
  - rewrite Hh. apply Forall_forall. intros t Ht.
    apply list_elem_of_In, in_map_iff in Ht as (c & <- & Hc).
    by destruct (proj1 (List.Forall_forall _ _) Hf c Hc) as (_ & _ & _ & ?).
  - exact Hl.
  - rewrite Hh, length_map. lia.
  - by rewrite Ha, Hr, Hk, Hh.
Qed.

End Burst.

Lemma burst_admits_exactly_n_witness :
  let v := with_weekdays_only true (with_minute 2 no_limits) in
  let call (t : Z) : Clock * Reads :=
    (monday t, {| at_minute := fun _ => t + 1; at_hour := fun _ => t + 1;
                  at_log := t + 2 |}) in
  let first := [call 100; call 110] in
  let later := [call 120; call 157] in
  requests_per_minute v = Some (Z.of_nat 2)
  /\ requests_per_hour v = None
  /\ sliding_window_limit v = None
  /\ role_is_user (plain_user "u1") = true
  /\ is_exempt v (Some (plain_user "u1")) = false
  /\ history (∅ : store) (user_id_of (plain_user "u1")) = []
  /\ length first = 2%nat
  /\ Forall (fun c => applies_today v (fst c) = true
                      /\ reads_in_minute 100 c) (first ++ later)
  /\ fst (calls_reads v (plain_user "u1") (first ++ later) ∅)
     = (map (fun _ => Ok tt) first
        ++ map (fun _ => Raise RateLimitExceeded) later)%list
  /\ history (snd (calls_reads v (plain_user "u1") (first ++ later) ∅))
       (user_id_of (plain_user "u1"))
     = [102; 112].
Proof.
  intros v call first later.
  assert (Hall : Forall (fun c => applies_today v (fst c) = true
                                  /\ reads_in_minute 100 c)
                   (first ++ later)).
  { repeat constructor; simpl; intros; lia. }
  split; [reflexivity|]. split; [reflexivity|]. split; [reflexivity|].
  split; [reflexivity|]. split; [reflexivity|]. split; [reflexivity|].
  split; [reflexivity|]. split; [exact Hall|].
  apply (burst_admits_exactly_n v (plain_user "u1") 2 100);
    try reflexivity; exact Hall.
Defined.

(** ** Exemption, exactly *)

Lemma guarded_str_in (x : string) (l : list string) :
  negb (is_empty_list l) && str_in x l = str_in x l.
Proof. by destruct l. Qed.

Lemma str_in_In (x : string) (l : list string) :
  str_in x l = true <-> In x l.
Proof.
  unfold str_in. rewrite existsb_exists. split.
  - intros (y & Hy & E). apply String.eqb_eq in E. by subst.
  - intros H. exists x. split; [exact H|apply String.eqb_refl].
Qed.

(** X14.  When no exempt list holds the empty string, [is_exempt] is
    exactly: the record has a string ["username"] whose trimmed,
    lower-cased form is an exempt username, or a string ["email"]
    likewise, or a string ["id"] whose trimmed form is an exempt id.
    Fields that are missing or [None] never match. *)
Theorem is_exempt_exactly (v : Valves) (u : dict) :
  str_in "" (exempt_usernames v) = false ->
  str_in "" (exempt_emails v) = false ->
  is_exempt v (Some u) = exempt_trimmed_id v u.
Proof.
  intros Hn He. unfold is_exempt, exempt_trimmed_id, field_matches.
  rewrite !guarded_str_in. unfold is_empty_dict. case_bool_decide as Hu.
  { subst u. by rewrite !lookup_empty. }
  unfold get_or_empty.
  assert (E0 : lower (strip "") = "") by reflexivity.
  destruct (u !! "username") as [[|s]|]; rewrite ?E0, ?Hn, ?strip_lower;
    [| destruct (str_in (lower (strip s)) (exempt_usernames v));
       [reflexivity|] |];
    (destruct (u !! "email") as [[|s']|]; rewrite ?E0, ?He, ?strip_lower;
      [| destruct (str_in (lower (strip s')) (exempt_emails v));
         [reflexivity|] |]);
    simpl; destruct (exempt_user_ids v);
    destruct (u !! "id") as [[|i]|]; reflexivity.
Qed.

Lemma is_exempt_exactly_witness :
  let v := with_exempt ["admin"] ["svc-7"] no_limits in
  str_in "" (exempt_usernames v) = false
  /\ str_in "" (exempt_emails v) = false
  /\ is_exempt v (Some (plain_user " svc-7 "))
     = exempt_trimmed_id v (plain_user " svc-7 ").
Proof.
  intros v. split; [reflexivity|]. split; [reflexivity|].
  apply (is_exempt_exactly v (plain_user " svc-7 ")); reflexivity.
Defined.

(** ** Construction *)

Lemma lower_char_idempotent (c : ascii) :
  lower_char (lower_char c) = lower_char c.
Proof. destruct c as [[] [] [] [] [] [] [] []]; reflexivity. Qed.

Lemma lower_idempotent (s : string) : lower (lower s) = lower s.
Proof.
  induction s as [|c s IH]; simpl; [reflexivity|].
  by rewrite lower_char_idempotent, IH.
Qed.

Lemma lower_nonempty (s : string) : s <> "" -> lower s <> "".
Proof. by destruct s. Qed.

Lemma lstrip_head (s : string) :
  lstrip s = ""
  \/ exists c r, lstrip s = String c r /\ is_space c = false.
Proof.
  induction s as [|c s IH]; simpl; [by left|].
  destruct (is_space c) eqn:E; [exact IH|]. right. by exists c, s.
Qed.

Lemma rstrip_cons_nonspace (c : ascii) (s : string) :
  is_space c = false -> rstrip (String c s) = String c (rstrip s).
Proof. intros E. simpl. rewrite E. by destruct (rstrip s). Qed.

Lemma rstrip_idempotent (s : string) : rstrip (rstrip s) = rstrip s.
Proof.
  induction s as [|c s IH]; simpl; [reflexivity|].
  destruct (rstrip s) as [|a r] eqn:E.
  - destruct (is_space c) eqn:Ec; simpl; [reflexivity|by rewrite Ec].
  - change (rstrip (String c (String a r))) with
      (match rstrip (String a r) with
       | EmptyString =>
           if is_space c then EmptyString else String c EmptyString
       | r0 => String c r0
       end).
    by rewrite IH.
Qed.

(** Trimming twice is trimming once. *)
Lemma strip_idempotent (s : string) : strip (strip s) = strip s.
Proof.
  unfold strip. destruct (lstrip_head s) as [E|(c & r & E & Hc)]; rewrite E.
  - reflexivity.
  - rewrite (rstrip_cons_nonspace c r Hc). simpl lstrip. rewrite Hc.
    by rewrite (rstrip_cons_nonspace c _ Hc), rstrip_idempotent.
Qed.

Lemma nonempty_true (s : string) : nonempty s = true -> s <> "".
Proof. by destruct s. Qed.

Lemma stripped_entries_lower (s : string) :
  Forall trimmed_lower (stripped_entries lower s).
Proof.
  unfold stripped_entries. apply Forall_forall. intros y Hy.
  apply list_elem_of_In, in_map_iff in Hy as (x & <- & Hx).
  apply filter_In in Hx as [_ Hx]. apply nonempty_true in Hx.
  repeat split.
  - by apply lower_nonempty.
  - by rewrite strip_lower, strip_idempotent.
  - apply lower_idempotent.
Qed.

Lemma stripped_entries_id (s : string) :
  Forall trimmed (stripped_entries (fun x => x) s).
Proof.
  unfold stripped_entries. apply Forall_forall. intros y Hy.
  apply list_elem_of_In, in_map_iff in Hy as (x & <- & Hx).
  apply filter_In in Hx as [_ Hx]. apply nonempty_true in Hx.
  split; [exact Hx|apply strip_idempotent].
Qed.

(** What [__init__] yields when it returns. *)
Lemma init_inv (py_int : string -> option Z) (env : gmap string string)
    (p : PipelineObj) :
  init py_int env = Some p ->
  exists rpm rph swl swm,
    requests_per_minute (self_valves p) = Some rpm
    /\ requests_per_hour (self_valves p) = Some rph
    /\ sliding_window_limit (self_valves p) = Some swl
    /\ sliding_window_minutes (self_valves p) = Some swm
    /\ exempt_usernames (self_valves p)
       = stripped_entries lower (getenv env "RATE_LIMIT_EXEMPT_USERNAMES" "")
    /\ exempt_emails (self_valves p)
       = stripped_entries lower (getenv env "RATE_LIMIT_EXEMPT_EMAILS" "")
    /\ exempt_user_ids (self_valves p)
       = stripped_entries (fun x => x)
           (getenv env "RATE_LIMIT_EXEMPT_USER_IDS" "")
    /\ self_user_requests p = ∅.
Proof.
  unfold init.
  destruct (getenv_int py_int env "RATE_LIMIT_REQUESTS_PER_MINUTE" 10)
    as [rpm|]; [|discriminate].
  destruct (getenv_int py_int env "RATE_LIMIT_REQUESTS_PER_HOUR" 1000)
    as [rph|]; [|discriminate].
  destruct (getenv_int py_int env "RATE_LIMIT_SLIDING_WINDOW_LIMIT" 100)
    as [swl|]; [|discriminate].
  destruct (getenv_int py_int env "RATE_LIMIT_SLIDING_WINDOW_MINUTES" 15)
    as [swm|]; [|discriminate].
  intros H; inversion H; subst; clear H. simpl.
  exists rpm, rph, swl, swm. repeat split; reflexivity.
Qed.

(** X15.  Whatever the environment, the exempt lists that [__init__]
    builds hold no empty entry and only trimmed entries, lower-cased for
    usernames and emails, and the history starts empty. *)
Theorem init_exempt_lists_normalized (py_int : string -> option Z)
    (env : gmap string string) (p : PipelineObj) :
  init py_int env = Some p ->
  Forall trimmed_lower (exempt_usernames (self_valves p))
  /\ Forall trimmed_lower (exempt_emails (self_valves p))
  /\ Forall trimmed (exempt_user_ids (self_valves p))
  /\ self_user_requests p = ∅.
Proof.
  intros H.
  destruct (init_inv _ _ _ H) as (? & ? & ? & ? & _ & _ & _ & _ & -> & -> & -> & ->).
  repeat split;
    [apply stripped_entries_lower..|apply stripped_entries_id].
Qed.

Lemma init_exempt_lists_normalized_witness :
  let env : gmap string string :=
    <["RATE_LIMIT_EXEMPT_USER_IDS" := " 42 ,, svc-7"]>
      (<["RATE_LIMIT_EXEMPT_USERNAMES" := " Admin , ,bob"]> ∅) in
  exists p,
    init (fun _ => None) env = Some p
    /\ exempt_usernames (self_valves p) = ["admin"; "bob"]
    /\ exempt_user_ids (self_valves p) = ["42"; "svc-7"]
    /\ Forall trimmed_lower (exempt_usernames (self_valves p))
    /\ Forall trimmed_lower (exempt_emails (self_valves p))
    /\ Forall trimmed (exempt_user_ids (self_valves p))
    /\ self_user_requests p = ∅.
Proof.
  intros env. eexists. split; [reflexivity|].
  split; [reflexivity|]. split; [reflexivity|].
  eapply (init_exempt_lists_normalized (fun _ => None) env). reflexivity.
Defined.

(** X16.  [__init__] sets the four limits or fails, so the valves it
    builds always have a window length: on them, a call made for a user
    record returns the body or raises the rejection signal, never
    [TypeError]. *)
Theorem init_never_type_error {Body} (py_int : string -> option Z)
    (env : gmap string string) (p : PipelineObj) (body : Body) (u : dict)
    (clk : Clock) (st : store) :
  init py_int env = Some p ->
  fst (inlet (self_valves p) body (Some u) clk st) = Ok body
  \/ fst (inlet (self_valves p) body (Some u) clk st)
     = Raise RateLimitExceeded.
Proof.
  intros H. apply inlet_record_outcome.
  destruct (init_inv _ _ _ H) as (? & ? & ? & swm & _ & _ & _ & Hm & _).
  right. by rewrite Hm.
Qed.

Lemma init_never_type_error_witness :
  exists p,
    init (fun _ => None) ∅ = Some p
    /\ (fst (inlet (self_valves p) tt (Some (plain_user "u1")) (monday 4000)
               (one_history "u1" [0; 3990])) = Ok tt
        \/ fst (inlet (self_valves p) tt (Some (plain_user "u1"))
                  (monday 4000) (one_history "u1" [0; 3990]))
           = Raise RateLimitExceeded).
Proof.
  eexists. split; [reflexivity|].
  eapply (init_never_type_error (fun _ => None) ∅). reflexivity.
Defined.

Lemma exempt_as_stated_trimmed_id (v : Valves) (u : dict) :
  Forall trimmed (exempt_user_ids v) ->
  exempt_as_stated v u = true -> exempt_trimmed_id v u = true.
Proof.
  intros Ht. unfold exempt_as_stated, exempt_trimmed_id.
  intros H. apply orb_true_iff in H as [H|H]; [by rewrite H|].
  apply orb_true_iff. right.
  apply field_matches_inv in H as (s & Hs & Hin).
  unfold field_matches. rewrite Hs.
  pose proof (proj1 (str_in_In _ _) Hin) as HI.
  destruct (proj1 (List.Forall_forall _ _) Ht s HI) as [_ E].
  by rewrite E.
Qed.

(** X17.  On valves built by [__init__], exemption is as the
    configuration reads: a user whose username or email, lower-cased and
    trimmed, or whose id, as it stands, is an entry of the corresponding
    exempt list gets the body back on every call and leaves the history
    untouched. *)
Theorem init_exempt_as_stated_allowed {Body} (py_int : string -> option Z)
    (env : gmap string string) (p : PipelineObj) (body : Body) (u : dict)
    (clk : Clock) (st : store) :
  init py_int env = Some p ->
  exempt_as_stated (self_valves p) u = true ->
  inlet (self_valves p) body (Some u) clk st = (Ok body, st).
Proof.
  intros H He. apply inlet_bypass. right; left.
  apply exempt_trimmed_id_is_exempt, exempt_as_stated_trimmed_id; [|exact He].
  destruct (init_inv _ _ _ H) as (? & ? & ? & ? & _ & _ & _ & _ & _ & _ & -> & _).
  apply stripped_entries_id.
Qed.

Lemma init_exempt_as_stated_allowed_witness :
  let env : gmap string string :=
    <["RATE_LIMIT_REQUESTS_PER_MINUTE" := "0"]>
      (<["RATE_LIMIT_EXEMPT_USER_IDS" := " 42 ,, svc-7"]> ∅) in
  let py_int := fun s : string => if String.eqb s "0" then Some 0 else None in
  exists p,
    init py_int env = Some p
    /\ requests_per_minute (self_valves p) = Some 0
    /\ exempt_as_stated (self_valves p) (plain_user "svc-7") = true
    /\ inlet (self_valves p) tt (Some (plain_user "svc-7")) (monday 5)
         (one_history "svc-7" [1; 2; 3])
       = (Ok tt, one_history "svc-7" [1; 2; 3]).
Proof.
  intros env py_int. eexists. split; [reflexivity|].
  split; [reflexivity|]. split; [reflexivity|].
  eapply (init_exempt_as_stated_allowed py_int env); reflexivity.
Defined.

(** Without any variable set, [__init__] yields the defaults. *)
Example init_defaults (py_int : string -> option Z) :
  init py_int ∅
  = Some {| self_type := "filter";
            self_name := "Rate Limit Filter";
            self_pipelines := ["*"];
            self_valves :=
              {| requests_per_minute := Some 10;
                 requests_per_hour := Some 1000;
                 sliding_window_limit := Some 100;
                 sliding_window_minutes := Some 15;
                 exempt_usernames := []; exempt_emails := [];
                 exempt_user_ids := []; weekdays_only := true |};
            self_user_requests := ∅ |}.
Proof. reflexivity. Qed.

(** A value that [int] does not read makes [__init__] fail. *)
Example init_bad_number :
  init (fun _ => None)
    (<["RATE_LIMIT_REQUESTS_PER_HOUR" := "many"]> ∅) = None.
Proof. reflexivity. Qed.

(** ** The weekday switch *)

(** X19.  From Monday to Friday [weekdays_only] changes nothing: the call
    goes as it does with the switch off. *)
Theorem weekdays_only_inert_on_weekdays {Body} (v : Valves) (body : Body)
    (user : option dict) (clk : Clock) (st : store) :
  weekday clk < 5 ->
  inlet v body user clk st
  = inlet (with_weekdays_only false v) body user clk st.
Proof.
  intros Hd. unfold inlet. destruct user as [u|]; [|reflexivity].
  destruct (role_is_user u); [|reflexivity].
  change (is_exempt (with_weekdays_only false v) (Some u))
    with (is_exempt v (Some u)).
  destruct (negb (is_exempt v (Some u))); [|reflexivity].
  unfold is_weekday. replace (weekday clk <? 5) with true by lia.
  rewrite orb_true_r. reflexivity.
Qed.

Lemma weekdays_only_inert_on_weekdays_witness :
  let v := with_weekdays_only true (with_minute 1 no_limits) in
  weekday (monday 30) < 5
  /\ inlet v tt (Some (plain_user "u1")) (monday 30) (one_history "u1" [0])
     = inlet (with_weekdays_only false v) tt (Some (plain_user "u1"))
         (monday 30) (one_history "u1" [0]).
Proof.
  intros v.
  assert (H : weekday (monday 30) < 5) by (simpl; lia).
  split; [exact H|].
  apply (weekdays_only_inert_on_weekdays v tt (Some (plain_user "u1"))
           (monday 30) (one_history "u1" [0]) H).
Defined.
